(** * The compat component of Icinga 2: command pipe and status snapshot

    A shallow embedding of [components/compat/compatcomponent.cpp]:
    the decoder of external command lines ([ProcessCommand]), the
    command pipe thread ([CommandPipeThread]) and the writers of the
    legacy [status.dat] / [objects.cache] documents
    ([StatusTimerHandler] and the [Dump...] functions).

    Conventions of the embedding
    - [icinga::String] (base library, [qstring.h]) wraps [std::string]
      and is a [string] here.  Its members [FindFirstOf], [SubStr] and
      [Split] forward to [std::string::find_first_of],
      [std::string::substr] and [boost::algorithm::split]; they are
      given with the behaviour of these library functions.
    - [size_t] positions are [nat]; the sentinel [String::NPos] is [None].
    - [double] is the primitive IEEE 754 binary64 [float].
    - Logging, the external command engine and system calls are recorded
      as events of a trace, in the order in which the code performs them.
    - A C++ exception leaving a function is the result [Throw]. *)

From Stdlib Require Import String Ascii List Bool Arith ZArith Lia.
From Stdlib Require Import Floats DecimalString.
Import ListNotations.

Local Open Scope string_scope.
Local Open Scope list_scope.

(** ** Exceptions and results *)

Inductive exn : Type :=
| out_of_range                                   (* std::out_of_range *)
| PosixException (what : string) (errno : Z).

Inductive result (A : Type) : Type :=
| Ok (a : A)
| Throw (e : exn).
Arguments Ok {A} a.
Arguments Throw {A} e.

(** ** Characters and strings *)

Module Str.

Definition LF : ascii := Ascii.ascii_of_nat 10.
Definition CR : ascii := Ascii.ascii_of_nat 13.
Definition TAB : ascii := Ascii.ascii_of_nat 9.

(** The one-character strings the writers use: ["\n"] and ["\t"]. *)
Definition nl : string := String LF "".
Definition tab : string := String TAB "".

(** [is_any_of(set)]: the predicate "is one of the characters of [set]". *)
Fixpoint is_any_of (set : string) (c : ascii) : bool :=
  match set with
  | "" => false
  | String d set' => Ascii.eqb c d || is_any_of set' c
  end.

(** [String::FindFirstOf(set)], that is [std::string::find_first_of]:
    the position of the first character that occurs in [set], [None]
    for [NPos]. *)
Fixpoint FindFirstOf (s set : string) : option nat :=
  match s with
  | "" => None
  | String c s' =>
      if is_any_of set c then Some 0
      else option_map S (FindFirstOf s' set)
  end.

(** The first [n] characters (all of them when there are fewer). *)
Fixpoint take (n : nat) (s : string) : string :=
  match n, s with
  | S n', String c s' => String c (take n' s')
  | _, _ => ""
  end.

(** What is left after the first [n] characters. *)
Fixpoint drop (n : nat) (s : string) : string :=
  match n, s with
  | S n', String _ s' => drop n' s'
  | _, _ => s
  end.

(** No character of [s] satisfies [p]. *)
Fixpoint none_of (p : ascii -> bool) (s : string) : bool :=
  match s with
  | "" => true
  | String c s' => negb (p c) && none_of p s'
  end.

(** [s] begins with [p]. *)
Definition starts_with (p s : string) : bool := String.prefix p s.

(** Concatenation of the pieces of a text. *)
Definition cat (pieces : list string) : string :=
  fold_right append "" pieces.

(** [sep]-joined concatenation. *)
Fixpoint join (sep : string) (l : list string) : string :=
  match l with
  | [] => ""
  | [x] => x
  | x :: l' => x ++ sep ++ join sep l'
  end.

(** [String::NPos]. *)
Definition NPos : option nat := None.

(** [String::SubStr(first, len)], that is [std::string::substr]: it
    throws [std::out_of_range] when [first] is greater than the length,
    and otherwise gives the characters from [first] on, at most [len]
    of them ([NPos]: all of them). *)
Definition SubStr (s : string) (first : nat) (len : option nat)
  : result string :=
  if (String.length s <? first)%nat then Throw out_of_range
  else Ok (match len with
           | Some n => take n (drop first s)
           | None => drop first s
           end).

(** [String::Split(pred)], that is [boost::algorithm::split] without
    token compression: the input is cut at every separator, so that
    [n] separators give [n + 1] tokens, empty ones included; the empty
    input gives one empty token. *)
Fixpoint Split (s : string) (pred : ascii -> bool) : list string :=
  match s with
  | "" => [""]
  | String c s' =>
      if pred c then "" :: Split s' pred
      else match Split s' pred with
           | tok :: toks => String c tok :: toks
           | [] => [String c ""]
           end
  end.

Definition is_LF (c : ascii) : bool := Ascii.eqb c LF.

(** The lines of a text: its pieces between line feeds. *)
Definition lines (text : string) : list string := Split text is_LF.

(** Decimal rendering of an integer, as [operator<<] gives it. *)
Definition show_int (z : Z) : string :=
  NilZero.string_of_int (Z.to_int z).

End Str.

(** ** Collaborators outside this file

    The parts of the daemon the component calls but does not define.
    Each is a field of [Externals]; nothing is assumed about them. *)

Class Externals : Type := {
  (** [String::ToDouble]: the conversion of the timestamp field. *)
  ToDouble : string -> float;
  (** [ExternalCommand::Execute]: [Some what] when the call raises an
      exception whose message is [what], [None] when it returns. *)
  Execute_raises : float -> string -> list string -> option string;
  (** [operator<<] for a [double] on a stream in [std::fixed] mode. *)
  show_double : float -> string;
  (** [Utility::GetTime()] and [time(NULL)] at the [k]-th consultation
      of the clock in a cycle. *)
  Utility_GetTime : nat -> float;
  time_NULL : nat -> Z;
  (** [Utility::GetPid()]. *)
  Utility_GetPid : Z;
  (** [IcingaApplication::GetInstance()->GetStartTime()]. *)
  GetStartTime : float;
  (** [CIB::GetTaskStatistics(timespan)]. *)
  CIB_GetTaskStatistics : Z -> Z;
  (** [Application::GetLocalStateDir()]. *)
  GetLocalStateDir : string
}.

(** ** The command decoder: [ProcessCommand] *)

Inductive LogSeverity : Type :=
| LogDebug | LogInformation | LogWarning | LogCritical.

(** What [ProcessCommand] does to the rest of the daemon. *)
Inductive effect : Type :=
| Logger_Write (severity : LogSeverity) (facility message : string)
| ExternalCommand_Execute (time : float) (command : string)
                          (arguments : list string).

(** A computation that leaves a trace of events of type [E] and either
    returns or throws. *)
Definition Traced (E A : Type) : Type := (list E * result A)%type.

Module TraceMonad.

Definition ret {E A} (a : A) : Traced E A := ([], Ok a).

Definition bind {E A B} (m : Traced E A) (f : A -> Traced E B)
  : Traced E B :=
  match m with
  | (t, Ok a) => let (t', r) := f a in (t ++ t', r)
  | (t, Throw e) => (t, Throw e)
  end.

(** A library call that may throw and leaves no event. *)
Definition lift {E A} (r : result A) : Traced E A := ([], r).

(** An event. *)
Definition emit {E} (e : E) : Traced E unit := ([e], Ok tt).

Definition throw {E A} (e : exn) : Traced E A := ([], Throw e).

End TraceMonad.

Definition Cmd (A : Type) : Type := Traced effect A.

Module CmdMonad.
Export TraceMonad.

Definition Write (severity : LogSeverity) (facility message : string)
  : Cmd unit :=
  emit (Logger_Write severity facility message).

(** The call of the engine together with the handler of the
    surrounding [try]: an exception of the engine is caught and its
    message handed to [handler]. *)
Definition Execute_catch `{Externals} (time : float) (command : string)
    (arguments : list string) (handler : string -> Cmd unit) : Cmd unit :=
  match Execute_raises time command arguments with
  | None => emit (ExternalCommand_Execute time command arguments)
  | Some what =>
      bind (emit (ExternalCommand_Execute time command arguments))
           (fun _ => handler what)
  end.

End CmdMonad.

Declare Scope cmd_scope.
Delimit Scope cmd_scope with cmd.
Notation "x <- m ;; k" := (TraceMonad.bind m (fun x => k))
  (at level 61, m at next level, right associativity) : cmd_scope.
Notation "m ;; k" := (TraceMonad.bind m (fun _ => k))
  (at level 61, right associativity) : cmd_scope.

Section Decoder.
Context `{Externals}.
Import Str CmdMonad.
Local Open Scope cmd_scope.

Definition ProcessCommand (command : string) : Cmd unit :=
  match command with
  | "" => ret tt                                   (* command.IsEmpty() *)
  | String c0 _ =>
    if negb (Ascii.eqb c0 "[") then
      Write LogWarning "compat" ("Missing timestamp in command: " ++ command)
    else
      match FindFirstOf command "]" with
      | None =>
          Write LogWarning "compat"
                ("Missing timestamp in command: " ++ command)
      | Some pos =>
          timestamp <- lift (SubStr command 1 (Some (pos - 1))) ;;
          args <- lift (SubStr command (pos + 2) NPos) ;;
          let ts := ToDouble timestamp in
          if (ts =? 0)%float then
            Write LogWarning "compat"
                  ("Invalid timestamp in command: " ++ command)
          else
            let argv := Split args (is_any_of ";") in
            if (List.length argv =? 0)%nat then
              Write LogWarning "compat"
                    ("Missing arguments in command: " ++ command)
            else
              let argvExtra := List.tl argv in
              Write LogInformation "compat"
                    ("Executing external command: " ++ command) ;;
              Execute_catch ts (List.hd "" argv) argvExtra
                (fun what =>
                   Write LogWarning "compat"
                         ("External command failed: " ++ what))
      end
  end.

(** The commands handed to the engine, in order. *)
Fixpoint submitted (t : list effect)
  : list (float * string * list string) :=
  match t with
  | [] => []
  | ExternalCommand_Execute ts name args :: t' =>
      (ts, name, args) :: submitted t'
  | _ :: t' => submitted t'
  end.

(** The warnings written to the log, in order. *)
Fixpoint warnings (t : list effect) : list string :=
  match t with
  | [] => []
  | Logger_Write LogWarning _ msg :: t' => msg :: warnings t'
  | _ :: t' => warnings t'
  end.

End Decoder.

(** ** The command pipe: [CommandPipeThread] *)

(** What the thread does, in order: its system calls and the events it
    posts to the main loop. *)
Inductive action : Type :=
| sys_lstat (path : string)
| sys_access (path : string)          (* access(path, R_OK) *)
| sys_unlink (path : string)
| sys_mkfifo (path : string)          (* mode: rw for user and group *)
| sys_open (path : string)            (* O_RDONLY *)
| sys_fdopen
| sys_close
| sys_fclose
| Event_Post (command : string).      (* a deferred ProcessCommand(command) *)

(** What the file system answers while the pipe is set up. *)
Record PipeNode : Type := {
  (** [None] when [lstat] fails, otherwise [S_ISFIFO(st_mode)]. *)
  lstat_result : option bool;
  (** [access(path, R_OK) >= 0]. *)
  access_R_OK : bool;
  (** [unlink(path) >= 0]. *)
  unlink_ok : bool;
  (** [mkfifo(path, mode) >= 0]. *)
  mkfifo_ok : bool;
  (** [errno] after a failed call. *)
  setup_errno : Z
}.

(** What happens at one [open] of the pipe. *)
Inductive attempt : Type :=
| open_fails (errno : Z)
| fdopen_fails (errno : Z)
| writer (reads : list string).
    (* a peer connects; [fgets] gives these buffers and then NULL *)

(** Where the thread is once the scripted attempts are used up. *)
Inductive thread_state : Type :=
| Stopped (e : exn)      (* an exception left the thread function *)
| Waiting.               (* alive, about to open the pipe again *)

Section Pipe.
Import Str TraceMonad.
Local Open Scope cmd_scope.

Definition is_eol (c : ascii) : bool := Ascii.eqb c CR || Ascii.eqb c LF.

(** The loop that cuts the trailing line ends off the buffer. *)
Fixpoint strip_eol (line : string) : string :=
  match line with
  | "" => ""
  | String c rest =>
      match strip_eol rest with
      | "" => if is_eol c then "" else String c ""
      | kept => String c kept
      end
  end.

(** Lines 103-117: the node at the command path is inspected and the
    pipe made.  The result is [fifo_ok]. *)
Definition inspect_node (commandPath : string) (fs : PipeNode)
  : Traced action bool :=
  emit (sys_lstat commandPath) ;;
  match lstat_result fs with
  | Some is_fifo =>
      readable <- (if is_fifo
                   then emit (sys_access commandPath) ;; ret (access_R_OK fs)
                   else ret false) ;;
      if is_fifo && readable then ret true
      else
        emit (sys_unlink commandPath) ;;
        if unlink_ok fs then ret false
        else throw (PosixException "unlink() failed" (setup_errno fs))
  | None => ret false
  end.

Definition make_pipe (commandPath : string) (fs : PipeNode)
  : Traced action unit :=
  fifo_ok <- inspect_node commandPath fs ;;
  if negb fifo_ok then
    emit (sys_mkfifo commandPath) ;;
    if mkfifo_ok fs then ret tt
    else throw (PosixException "mkfifo() failed" (setup_errno fs))
  else ret tt.

(** Lines 134-142: every buffer read is stripped and posted. *)
Definition read_lines (reads : list string) : list action :=
  map (fun line => Event_Post (strip_eol line)) reads.

(** Lines 119-145: the endless loop, run against a finite script of
    what each [open] meets. *)
Fixpoint serve (commandPath : string) (script : list attempt)
  : list action * thread_state :=
  match script with
  | [] => ([], Waiting)
  | open_fails errno :: _ =>
      ([sys_open commandPath],
       Stopped (PosixException "open() failed" errno))
  | fdopen_fails errno :: _ =>
      ([sys_open commandPath; sys_fdopen; sys_close],
       Stopped (PosixException "fdopen() failed" errno))
  | writer reads :: script' =>
      let (t, st) := serve commandPath script' in
      ([sys_open commandPath; sys_fdopen] ++ read_lines reads
         ++ [sys_fclose] ++ t, st)
  end.

Definition CommandPipeThread (commandPath : string) (fs : PipeNode)
    (script : list attempt) : list action * thread_state :=
  match make_pipe commandPath fs with
  | (t, Throw e) => (t, Stopped e)
  | (t, Ok _) =>
      let (t', st) := serve commandPath script in (t ++ t', st)
  end.

(** The commands posted, in order. *)
Fixpoint posted (t : list action) : list string :=
  match t with
  | [] => []
  | Event_Post command :: t' => command :: posted t'
  | _ :: t' => posted t'
  end.

(** Whether, and how often, an action occurs in a trace. *)
Definition performs (p : action -> bool) (t : list action) : bool :=
  existsb p t.
Definition count (p : action -> bool) (t : list action) : nat :=
  List.length (filter p t).

Definition is_unlink (a : action) : bool :=
  match a with sys_unlink _ => true | _ => false end.
Definition is_mkfifo (a : action) : bool :=
  match a with sys_mkfifo _ => true | _ => false end.
Definition is_open (a : action) : bool :=
  match a with sys_open _ => true | _ => false end.
Definition is_fclose (a : action) : bool :=
  match a with sys_fclose => true | _ => false end.

(** A scripted attempt at which [open] or [fdopen] fails. *)
Definition fails_to_open (a : attempt) : bool :=
  match a with writer _ => false | _ => true end.

(** What the peers of a script write, buffer by buffer. *)
Definition buffers (script : list attempt) : list string :=
  flat_map (fun a => match a with writer reads => reads | _ => [] end)
           script.

(** The node is there and is a pipe that may be read. *)
Definition readable_pipe (fs : PipeNode) : bool :=
  match lstat_result fs with
  | Some is_fifo => is_fifo && access_R_OK fs
  | None => false
  end.

Definition node_exists (fs : PipeNode) : bool :=
  match lstat_result fs with Some _ => true | None => false end.

End Pipe.

(** ** The monitored objects, as far as the writers read them *)

#[warnings="-register-all"]
Inductive Host : Type := mkHost {
  Host_GetName : string;
  Host_GetAlias : string;
  IsReachable : bool;
  IsUp : bool;
  (** [set<Host::Ptr>], in the order of iteration. *)
  GetParents : list Host
}.

Record HostGroup : Type := {
  HostGroup_GetName : string;
  HostGroup_GetAlias : string;
  HostGroup_GetNotesUrl : string;
  HostGroup_GetActionUrl : string;
  HostGroup_GetMembers : list Host
}.

(** The entries of a check result dictionary that are read. *)
Record CheckResult : Type := {
  output : string;
  schedule_start : float;
  schedule_end : float;
  execution_start : float;
  execution_end : float;
  performance_data_raw : string
}.

Record Service : Type := {
  GetHost : Host;
  Service_GetAlias : string;
  GetCheckInterval : float;
  GetRetryInterval : float;
  GetLastCheckResult : option CheckResult;
  (** The enumerators of [ServiceState], [ServiceStateType] and
      [AcknowledgementType] as the [int] they convert to. *)
  GetState : Z;
  GetStateType : Z;
  GetNextCheck : float;
  GetCurrentCheckAttempt : Z;
  GetMaxCheckAttempts : Z;
  GetLastStateChange : float;
  GetLastHardStateChange : float;
  GetEnableActiveChecks : bool;
  GetEnablePassiveChecks : bool;
  GetAcknowledgement : Z;
  GetAcknowledgementExpiry : float
}.

Record ServiceGroup : Type := {
  ServiceGroup_GetName : string;
  ServiceGroup_GetAlias : string;
  ServiceGroup_GetNotesUrl : string;
  ServiceGroup_GetActionUrl : string;
  ServiceGroup_GetMembers : list Service
}.

(** [GetName()] and [GetAlias()] of the object classes. *)
Class Named (T : Type) : Type := GetName : T -> string.
Class Aliased (T : Type) : Type := GetAlias : T -> string.

#[global] Instance Host_Named : Named Host := Host_GetName.
#[global] Instance Host_Aliased : Aliased Host := Host_GetAlias.
#[global] Instance HostGroup_Named : Named HostGroup := HostGroup_GetName.
#[global] Instance HostGroup_Aliased : Aliased HostGroup := HostGroup_GetAlias.
#[global] Instance Service_Aliased : Aliased Service := Service_GetAlias.
#[global] Instance ServiceGroup_Named : Named ServiceGroup :=
  ServiceGroup_GetName.
#[global] Instance ServiceGroup_Aliased : Aliased ServiceGroup :=
  ServiceGroup_GetAlias.

(** The enumerators the writers compare with; their declarations are
    in the headers of the icinga library. *)
Class Enumerators : Type := {
  StateUnknown : Z;
  AcknowledgementNone : Z
}.

(** The object registry: what [DynamicType::GetByName(t)->GetObjects()]
    iterates over, in its order. *)
Record Registry : Type := {
  Hosts : list Host;
  HostGroups : list HostGroup;
  Services : list Service;
  ServiceGroups : list ServiceGroup
}.

(** The component's configuration dictionary. *)
Record Config : Type := {
  status_path : option string;
  objects_path : option string;
  command_path : option string
}.

(** ** The snapshot writer *)

(** The two output streams of a cycle. *)
Inductive ofstream : Type := statusfp | objectfp.

Inductive pub_event : Type :=
| pub_log (severity : LogSeverity) (facility message : string)
| pub_open (fp : ofstream) (path : string)   (* open(path, out | trunc) *)
| pub_enumerate (type : string)
    (* DynamicType::GetByName(type)->GetObjects() *)
| pub_close (fp : ofstream)
| pub_rename (from to : string).

(** The state of a cycle: what has been written to each stream, how
    often the clock has been consulted, and what else has been done. *)
Record PubState : Type := mkPub {
  status_data : string;
  object_data : string;
  clock_reads : nat;
  journal : list pub_event
}.

Definition Pub (A : Type) : Type := PubState -> result A * PubState.

Module PubMonad.

Definition ret {A} (a : A) : Pub A := fun w => (Ok a, w).

Definition bind {A B} (m : Pub A) (f : A -> Pub B) : Pub B :=
  fun w => match m w with
           | (Ok a, w') => f a w'
           | (Throw e, w') => (Throw e, w')
           end.

Definition throw {A} (e : exn) : Pub A := fun w => (Throw e, w).

(** [fp << item << item ...]. *)
Definition insert (fp : ofstream) (items : list string) : Pub unit :=
  fun w =>
    (Ok tt,
     match fp with
     | statusfp =>
         mkPub (status_data w ++ Str.cat items) (object_data w)
               (clock_reads w) (journal w)
     | objectfp =>
         mkPub (status_data w) (object_data w ++ Str.cat items)
               (clock_reads w) (journal w)
     end).

Definition note (e : pub_event) : Pub unit :=
  fun w => (Ok tt, mkPub (status_data w) (object_data w) (clock_reads w)
                         (journal w ++ [e])).

(** [fp.open(path, ofstream::out | ofstream::trunc)]. *)
Definition open (fp : ofstream) (path : string) : Pub unit :=
  fun w =>
    (Ok tt,
     match fp with
     | statusfp => mkPub "" (object_data w) (clock_reads w)
                         (journal w ++ [pub_open fp path])
     | objectfp => mkPub (status_data w) "" (clock_reads w)
                         (journal w ++ [pub_open fp path])
     end).

Definition consult {A} (reading : nat -> A) : Pub A :=
  fun w => (Ok (reading (clock_reads w)),
            mkPub (status_data w) (object_data w) (S (clock_reads w))
                  (journal w)).

(** [BOOST_FOREACH]. *)
Fixpoint foreach {A} (l : list A) (body : A -> Pub unit) : Pub unit :=
  match l with
  | [] => ret tt
  | x :: l' => bind (body x) (fun _ => foreach l' body)
  end.

End PubMonad.

Declare Scope pub_scope.
Delimit Scope pub_scope with pub.
Notation "x <- m ;; k" := (PubMonad.bind m (fun x => k))
  (at level 61, m at next level, right associativity) : pub_scope.
Notation "m ;; k" := (PubMonad.bind m (fun _ => k))
  (at level 61, right associativity) : pub_scope.
Notation "fp << items" := (PubMonad.insert fp items)
  (at level 60, no associativity) : pub_scope.

Section Writers.
Context `{Externals} `{Enumerators}.
Import Str PubMonad.
Local Open Scope pub_scope.

Definition DefaultStatusPath : string := GetLocalStateDir ++ "/status.dat".
Definition DefaultObjectsPath : string :=
  GetLocalStateDir ++ "/objects.cache".
Definition DefaultCommandPath : string := GetLocalStateDir ++ "/icinga.cmd".

Definition GetStatusPath (config : Config) : string :=
  match status_path config with
  | None => DefaultStatusPath
  | Some statusPath => statusPath
  end.

Definition GetObjectsPath (config : Config) : string :=
  match objects_path config with
  | None => DefaultObjectsPath
  | Some objectsPath => objectsPath
  end.

Definition GetCommandPath (config : Config) : string :=
  match command_path config with
  | None => DefaultCommandPath
  | Some commandPath => commandPath
  end.

(** Modelled from the spec: [DumpStringList] is a template of the
    component's header, which is not part of this file; a list "renders
    as a comma-joined list". *)
Definition DumpStringList (fp : ofstream) (list : list string) : Pub unit :=
  fp << [join "," list].

(** Modelled from the spec: [DumpNameList] is a template of the
    component's header, which is not part of this file; a list renders
    as "a comma-joined list of names". *)
Definition DumpNameList {T} `{Named T} (fp : ofstream) (list : list T)
  : Pub unit :=
  fp << [join "," (map GetName list)].

(** The clock is consulted in the order in which the readings appear
    in the output. *)
Definition DumpHostStatus (fp : ofstream) (host : Host) : Pub unit :=
  let state : Z :=
    (if negb (IsReachable host) then 2      (* unreachable *)
     else if negb (IsUp host) then 1        (* down *)
     else 0)%Z in                           (* up *)
  last_check <- consult Utility_GetTime ;;
  next_check <- consult Utility_GetTime ;;
  last_update <- consult Utility_GetTime ;;
  fp << [ "hoststatus {"; nl;
          tab; "host_name="; GetName host; nl;
          tab; "has_been_checked=1"; nl;
          tab; "should_be_scheduled=1"; nl;
          tab; "check_execution_time=0"; nl;
          tab; "check_latency=0"; nl;
          tab; "current_state="; show_int state; nl;
          tab; "state_type=1"; nl;
          tab; "last_check="; show_double last_check; nl;
          tab; "next_check="; show_double next_check; nl;
          tab; "current_attempt=1"; nl;
          tab; "max_attempts=1"; nl;
          tab; "active_checks_enabled=1"; nl;
          tab; "passive_checks_enabled=1"; nl;
          tab; "last_update="; show_double last_update; nl;
          tab; "}"; nl;
          nl ].

Definition DumpHostObject (fp : ofstream) (host : Host) : Pub unit :=
  fp << [ "define host {"; nl;
          tab; "host_name"; tab; GetName host; nl;
          tab; "alias"; tab; GetAlias host; nl;
          tab; "check_interval"; tab; show_int 1; nl;
          tab; "retry_interval"; tab; show_int 1; nl;
          tab; "max_check_attempts"; tab; show_int 1; nl;
          tab; "active_checks_enabled"; tab; show_int 1; nl;
          tab; "passive_checks_enabled"; tab; show_int 1; nl ] ;;
  let parents := GetParents host in
  (if negb (match parents with [] => true | _ => false end) then
     fp << [ tab; "parents"; tab ] ;;
     DumpNameList fp parents ;;
     fp << [ nl ]
   else ret tt) ;;
  fp << [ tab; "}"; nl;
          nl ].

Definition DumpServiceStatus (fp : ofstream) (service : Service)
  : Pub unit :=
  let cr := GetLastCheckResult service in
  let output_ := match cr with Some r => output r | None => "" end in
  let perfdata :=
    match cr with Some r => performance_data_raw r | None => "" end in
  let schedule_start_ :=
    match cr with Some r => schedule_start r | None => (-1)%float end in
  let schedule_end_ :=
    match cr with Some r => schedule_end r | None => (-1)%float end in
  let execution_start_ :=
    match cr with Some r => execution_start r | None => (-1)%float end in
  let execution_end_ :=
    match cr with Some r => execution_end r | None => (-1)%float end in
  let execution_time := (execution_end_ - execution_start_)%float in
  let latency :=
    ((schedule_end_ - schedule_start_) - execution_time)%float in
  let state := GetState service in
  let state := if (state >? StateUnknown)%Z then StateUnknown else state in
  last_update <- consult time_NULL ;;
  fp << [ "servicestatus {"; nl;
          tab; "host_name="; GetName (GetHost service); nl;
          tab; "service_description="; GetAlias service; nl;
          tab; "check_interval=";
            show_double (GetCheckInterval service / 60)%float; nl;
          tab; "retry_interval=";
            show_double (GetRetryInterval service / 60)%float; nl;
          tab; "has_been_checked=";
            show_int (match GetLastCheckResult service with
                      | Some _ => 1 | None => 0 end); nl;
          tab; "should_be_scheduled=1"; nl;
          tab; "check_execution_time="; show_double execution_time; nl;
          tab; "check_latency="; show_double latency; nl;
          tab; "current_state="; show_int state; nl;
          tab; "state_type="; show_int (GetStateType service); nl;
          tab; "plugin_output="; output_; nl;
          tab; "performance_data="; perfdata; nl;
          tab; "last_check="; show_double schedule_end_; nl;
          tab; "next_check="; show_double (GetNextCheck service); nl;
          tab; "current_attempt=";
            show_int (GetCurrentCheckAttempt service); nl;
          tab; "max_attempts="; show_int (GetMaxCheckAttempts service); nl;
          tab; "last_state_change=";
            show_double (GetLastStateChange service); nl;
          tab; "last_hard_state_change=";
            show_double (GetLastHardStateChange service); nl;
          tab; "last_update="; show_int last_update; nl;
          tab; "active_checks_enabled=";
            show_int (if GetEnableActiveChecks service then 1 else 0); nl;
          tab; "passive_checks_enabled=";
            show_int (if GetEnablePassiveChecks service then 1 else 0); nl;
          tab; "problem_has_been_acknowledged=";
            show_int (if negb (GetAcknowledgement service
                               =? AcknowledgementNone)%Z
                      then 1 else 0); nl;
          tab; "acknowledgement_type=";
            show_int (GetAcknowledgement service); nl;
          tab; "acknowledgement_end_time=";
            show_double (GetAcknowledgementExpiry service); nl;
          tab; "}"; nl;
          nl ].

Definition DumpServiceObject (fp : ofstream) (service : Service)
  : Pub unit :=
  fp << [ "define service {"; nl;
          tab; "host_name"; tab; GetName (GetHost service); nl;
          tab; "service_description"; tab; GetAlias service; nl;
          tab; "check_command"; tab; "check_i2"; nl;
          tab; "check_interval"; tab;
            show_double (GetCheckInterval service / 60)%float; nl;
          tab; "retry_interval"; tab;
            show_double (GetRetryInterval service / 60)%float; nl;
          tab; "max_check_attempts"; tab; show_int 1; nl;
          tab; "active_checks_enabled"; tab;
            show_int (if GetEnableActiveChecks service then 1 else 0); nl;
          tab; "passive_checks_enabled"; tab;
            show_int (if GetEnablePassiveChecks service then 1 else 0); nl;
          tab; "}"; nl;
          nl ].

(** [rename(from, to)]; [rename_errno] is [errno] when it fails. *)
Definition rename (rename_errno : string -> string -> option Z)
    (from to : string) : Pub unit :=
  note (pub_rename from to) ;;
  match rename_errno from to with
  | None => ret tt
  | Some errno => throw (PosixException "rename() failed" errno)
  end.

(** The loop of lines 415-418 over the members of a service group. *)
Definition sglist_of (members : list Service) : list string :=
  fold_left
    (fun sglist service =>
       (sglist ++ [GetName (GetHost service)]) ++ [GetAlias service])
    members [].

(** The bodies of the four loops of [StatusTimerHandler], lines
    374-379, 381-394, 396-401 and 403-424. *)
Definition host_body (host : Host) : Pub unit :=
  DumpHostStatus statusfp host ;;
  DumpHostObject objectfp host.

Definition hostgroup_body (hg : HostGroup) : Pub unit :=
  objectfp << [ "define hostgroup {"; nl;
                tab; "hostgroup_name"; tab; GetName hg; nl;
                tab; "alias"; tab; GetAlias hg; nl;
                tab; "notes_url"; tab; HostGroup_GetNotesUrl hg; nl;
                tab; "action_url"; tab; HostGroup_GetActionUrl hg; nl ] ;;
  objectfp << [ tab; "members"; tab ] ;;
  DumpNameList objectfp (HostGroup_GetMembers hg) ;;
  objectfp << [ nl;
                "}"; nl ].

Definition service_body (service : Service) : Pub unit :=
  DumpServiceStatus statusfp service ;;
  DumpServiceObject objectfp service.

Definition servicegroup_body (sg : ServiceGroup) : Pub unit :=
  objectfp << [ "define servicegroup {"; nl;
                tab; "servicegroup_name"; tab; GetName sg; nl;
                tab; "alias"; tab; GetAlias sg; nl;
                tab; "notes_url"; tab; ServiceGroup_GetNotesUrl sg; nl;
                tab; "action_url"; tab; ServiceGroup_GetActionUrl sg;
                nl ] ;;
  objectfp << [ tab; "members"; tab ] ;;
  let sglist := sglist_of (ServiceGroup_GetMembers sg) in
  DumpStringList objectfp sglist ;;
  objectfp << [ nl;
                "}"; nl ].

Definition StatusTimerHandler (config : Config) (registry : Registry)
    (rename_errno : string -> string -> option Z) : Pub unit :=
  note (pub_log LogInformation "compat"
                "Writing compat status information") ;;
  let statuspath := GetStatusPath config in
  let objectspath := GetObjectsPath config in
  let statuspathtmp := (statuspath ++ ".tmp")%string in
  let objectspathtmp := (objectspath ++ ".tmp")%string in
  open statusfp statuspathtmp ;;
  statusfp << [ "# Icinga status file"; nl;
                "# This file is auto-generated. Do not modify this file.";
                nl;
                nl ] ;;
  created <- consult Utility_GetTime ;;
  statusfp << [ "info {"; nl;
                tab; "created="; show_double created; nl;
                tab; "version=2.0"; nl;
                tab; "}"; nl;
                nl ] ;;
  statusfp << [ "programstatus {"; nl;
                "icinga_pid="; show_int Utility_GetPid; nl;
                tab; "daemon_mode=1"; nl;
                tab; "program_start="; show_double GetStartTime; nl;
                tab; "active_service_checks_enabled=1"; nl;
                tab; "passive_service_checks_enabled=1"; nl;
                tab; "active_host_checks_enabled=0"; nl;
                tab; "passive_host_checks_enabled=0"; nl;
                tab; "check_service_freshness=0"; nl;
                tab; "check_host_freshness=0"; nl;
                tab; "enable_flap_detection=1"; nl;
                tab; "enable_failure_prediction=0"; nl;
                tab; "active_scheduled_service_check_stats=";
                  show_int (CIB_GetTaskStatistics 60); ",";
                  show_int (CIB_GetTaskStatistics (5 * 60)); ",";
                  show_int (CIB_GetTaskStatistics (15 * 60)); nl;
                tab; "}"; nl;
                nl ] ;;
  open objectfp objectspathtmp ;;
  objectfp << [ "# Icinga objects cache file"; nl;
                "# This file is auto-generated. Do not modify this file.";
                nl;
                nl ] ;;
  note (pub_enumerate "Host") ;;
  foreach (Hosts registry) host_body ;;
  note (pub_enumerate "HostGroup") ;;
  foreach (HostGroups registry) hostgroup_body ;;
  note (pub_enumerate "Service") ;;
  foreach (Services registry) service_body ;;
  note (pub_enumerate "ServiceGroup") ;;
  foreach (ServiceGroups registry) servicegroup_body ;;
  note (pub_close statusfp) ;;
  note (pub_close objectfp) ;;
  note (pub_close statusfp) ;;
  rename rename_errno statuspathtmp statuspath ;;
  note (pub_close objectfp) ;;
  rename rename_errno objectspathtmp objectspath.

(** A cycle starts with nothing written and the clock not yet read. *)
Definition fresh : PubState := mkPub "" "" 0 [].

(** What has been written to a stream. *)
Definition written (fp : ofstream) (w : PubState) : string :=
  match fp with
  | statusfp => status_data w
  | objectfp => object_data w
  end.

(** The text a writer puts on the stream [fp] when the stream is
    empty and the clock has been consulted [k] times. *)
Definition block (fp : ofstream) (k : nat) (writer : Pub unit) : string :=
  written fp (snd (writer (mkPub "" "" k []))).

(** The status blocks of a list of objects, the first of them
    written when the clock has been consulted [k] times and each
    taking [ticks] readings; and their blocks in the objects
    document. *)
Fixpoint status_blocks {A} (ticks : nat) (writer : A -> Pub unit)
    (k : nat) (objects : list A) : string :=
  match objects with
  | [] => ""
  | x :: objects' =>
      block statusfp k (writer x)
        ++ status_blocks ticks writer (ticks + k) objects'
  end.

Definition object_blocks {A} (writer : A -> Pub unit) (objects : list A)
  : string :=
  cat (map (fun x => block objectfp 0 (writer x)) objects).

(** The registry without any object. *)
Definition no_objects : Registry :=
  {| Hosts := []; HostGroups := []; Services := []; ServiceGroups := [] |}.

(** The types enumerated in a cycle, in order. *)
Fixpoint enumerations (journal : list pub_event) : list string :=
  match journal with
  | [] => []
  | pub_enumerate type :: journal' => type :: enumerations journal'
  | _ :: journal' => enumerations journal'
  end.

(** The members field of a service group as the specification words
    it: host name and service alias of each member, pair after pair,
    joined by commas. *)
Definition servicegroup_members (sg : ServiceGroup) : string :=
  join ","
    (flat_map (fun service => [GetName (GetHost service); GetAlias service])
              (ServiceGroup_GetMembers sg)).

End Writers.

(** ** The failures of the decoder, as the specification names them *)

Inductive rejection : Type :=
| MissingTimestamp | InvalidTimestamp | MissingArguments.

(** The warning that reports a failure. *)
Definition rejection_message (k : rejection) : string :=
  match k with
  | MissingTimestamp => "Missing timestamp in command: "
  | InvalidTimestamp => "Invalid timestamp in command: "
  | MissingArguments => "Missing arguments in command: "
  end.

(** The malformed lines: a first character other than the opening
    bracket, no closing bracket, or a timestamp field that converts to
    zero and is followed by at least one more character. *)
Inductive malformed `{Externals} : string -> rejection -> Prop :=
| no_opening_bracket (c : ascii) (rest : string) :
    Ascii.eqb c "[" = false ->
    malformed (String c rest) MissingTimestamp
| no_closing_bracket (rest : string) :
    Str.none_of (Str.is_any_of "]") rest = true ->
    malformed (String "[" rest) MissingTimestamp
| zero_timestamp (T : string) (c : ascii) (rest : string) :
    Str.none_of (Str.is_any_of "]") T = true ->
    (ToDouble T =? 0)%float = true ->
    malformed ("[" ++ T ++ "]" ++ String c rest) InvalidTimestamp.

(** ** A concrete platform, to run the model on examples *)

Module Sample.

Definition digit_of (c : ascii) : option Z :=
  let n := Z.of_nat (Ascii.nat_of_ascii c) in
  if ((48 <=? n) && (n <=? 57))%Z then Some (n - 48)%Z else None.

(** The value of the leading decimal digits of [s], 0 when there are
    none: the conversion [strtod] performs on an unsigned integral
    field. *)
Fixpoint leading_digits (acc : Z) (s : string) : Z :=
  match s with
  | "" => acc
  | String c s' =>
      match digit_of c with
      | Some d => leading_digits (10 * acc + d) s'
      | None => acc
      end
  end.

Definition to_double (s : string) : float :=
  PrimFloat.of_uint63 (Uint63.of_Z (leading_digits 0 s)).

(** Fixed notation with six decimals, exact for finite values. *)
Definition pad6 (s : string) : string :=
  Str.drop (String.length s) "000000" ++ s.

Definition fixed6 (d : float) : string :=
  match Prim2SF d with
  | S754_zero s => (if s then "-" else "") ++ "0.000000"
  | S754_infinity s => if s then "-inf" else "inf"
  | S754_nan => "nan"
  | S754_finite s m e =>
      let n := (Z.pos m * 1000000)%Z in
      let scaled :=
        if (0 <=? e)%Z then (n * 2 ^ e)%Z
        else
          let den := (2 ^ (- e))%Z in
          let q := (n / den)%Z in
          let r := (n mod den)%Z in
          if (2 * r <? den)%Z then q
          else if (den <? 2 * r)%Z then (q + 1)%Z
          else if Z.even q then q else (q + 1)%Z in
      (if s then "-" else "")
        ++ Str.show_int (scaled / 1000000)
        ++ "." ++ pad6 (Str.show_int (scaled mod 1000000))
  end.

Definition platform : Externals := {|
  ToDouble := to_double;
  Execute_raises := fun _ _ _ => None;
  show_double := fixed6;
  Utility_GetTime :=
    fun k =>
      (1700000000 + PrimFloat.of_uint63 (Uint63.of_Z (Z.of_nat k)))%float;
  time_NULL := fun k => (1700000000 + Z.of_nat k)%Z;
  Utility_GetPid := 4242%Z;
  GetStartTime := 1699990000%float;
  CIB_GetTaskStatistics := fun _ => 0%Z;
  GetLocalStateDir := "/var/lib/icinga2"
|}.

(** [enum ServiceState { StateOK, StateWarning, StateCritical,
    StateUnknown, StateUncheckable }] and
    [enum AcknowledgementType { AcknowledgementNone, ... }]. *)
Definition enumerators : Enumerators := {|
  StateUnknown := 3%Z;
  AcknowledgementNone := 0%Z
|}.

(** A pipe that is there but may not be read. *)
Definition unreadable_pipe : PipeNode := {|
  lstat_result := Some true;
  access_R_OK := false;
  unlink_ok := true;
  mkfifo_ok := true;
  setup_errno := 0
|}.

(** A regular file in the place of the pipe, which cannot be removed. *)
Definition stuck_file : PipeNode := {|
  lstat_result := Some false;
  access_R_OK := true;
  unlink_ok := false;
  mkfifo_ok := true;
  setup_errno := 13
|}.

Definition localhost : Host := mkHost "localhost" "Local host" true true [].
Definition gateway : Host := mkHost "gw" "Gateway" true false [].
Definition web : Host :=
  mkHost "web" "Web server" false true [gateway; localhost].

Definition ping (h : Host) (cr : option CheckResult) (state : Z) : Service := {|
  GetHost := h;
  Service_GetAlias := "ping";
  GetCheckInterval := 300%float;
  GetRetryInterval := 60%float;
  GetLastCheckResult := cr;
  GetState := state;
  GetStateType := 1%Z;
  GetNextCheck := 1700000300%float;
  GetCurrentCheckAttempt := 1%Z;
  GetMaxCheckAttempts := 3%Z;
  GetLastStateChange := 1699999000%float;
  GetLastHardStateChange := 1699999000%float;
  GetEnableActiveChecks := true;
  GetEnablePassiveChecks := false;
  GetAcknowledgement := 0%Z;
  GetAcknowledgementExpiry := 0%float
|}.

Definition servers : HostGroup := {|
  HostGroup_GetName := "servers";
  HostGroup_GetAlias := "Servers";
  HostGroup_GetNotesUrl := "";
  HostGroup_GetActionUrl := "";
  HostGroup_GetMembers := [web; localhost]
|}.

Definition a_result : CheckResult := {|
  output := "PING OK";
  schedule_start := 1700000000%float;
  schedule_end := 1700000002.5%float;
  execution_start := 1700000001%float;
  execution_end := 1700000002.25%float;
  performance_data_raw := "rta=0.5ms"
|}.

Definition registry : Registry := {|
  Hosts := [localhost; web];
  HostGroups := [servers];
  Services := [ping web None 4; ping localhost (Some a_result) 2];
  ServiceGroups := []
|}.

Definition config : Config := {|
  status_path := None;
  objects_path := Some "/var/cache/icinga2/objects.cache";
  command_path := None
|}.

Definition pings : ServiceGroup := {|
  ServiceGroup_GetName := "pings";
  ServiceGroup_GetAlias := "Ping checks";
  ServiceGroup_GetNotesUrl := "";
  ServiceGroup_GetActionUrl := "";
  ServiceGroup_GetMembers :=
    [ping web None 4; ping localhost (Some a_result) 2]
|}.

End Sample.

(** ** The read loop on the bytes of a peer

    [CommandPipeThread] reads with [fgets(line, sizeof(line), fp)] into
    [char line[2048]]; the buffers this gives on the bytes a peer writes
    before it closes the pipe. *)

Section Reads.
Import Str.

(** [sizeof(line) - 1]: the characters a buffer holds besides its
    terminator. *)
Definition line_cap : nat := 2047.

(** [fgets], called until it gives NULL, on a stream that delivers
    [data] and then ends: a buffer takes the characters up to and with
    the next line feed, but no more than [cap] of them.  [line] is what
    the buffer holds so far and [room] how many characters still fit. *)
Fixpoint fgets_all (cap room : nat) (line data : string) : list string :=
  match data with
  | "" => match line with "" => [] | _ => [line] end
  | String c data' =>
      if is_LF c || (room <=? 1)%nat
      then (line ++ String c "")%string :: fgets_all cap cap "" data'
      else fgets_all cap (room - 1) (line ++ String c "")%string data'
  end.

Definition fgets_buffers (data : string) : list string :=
  fgets_all line_cap line_cap "" data.

Definition is_NUL (c : ascii) : bool := Ascii.eqb c Ascii.zero.

(** A buffer as the C string it holds: the characters before the
    first NUL. *)
Fixpoint c_str (buffer : string) : string :=
  match buffer with
  | "" => ""
  | String c buffer' => if is_NUL c then "" else String c (c_str buffer')
  end.

(** A peer that connects, writes [data] and closes the pipe. *)
Definition peer (data : string) : attempt :=
  writer (map c_str (fgets_buffers data)).

(** The last character of [s] is a line end. *)
Fixpoint ends_with_eol (s : string) : bool :=
  match s with
  | "" => false
  | String c "" => is_eol c
  | String _ s' => ends_with_eol s'
  end.

(** [s] is made of line ends only. *)
Definition all_eol (s : string) : bool :=
  none_of (fun c => negb (is_eol c)) s.

Definition is_fdopen (a : action) : bool :=
  match a with sys_fdopen => true | _ => false end.
Definition is_close (a : action) : bool :=
  match a with sys_close => true | _ => false end.
Definition is_lstat (a : action) : bool :=
  match a with sys_lstat _ => true | _ => false end.

(** The computation returned. *)
Definition returned {A} (r : result A) : bool :=
  match r with Ok _ => true | Throw _ => false end.

End Reads.

(** The four ways [ProcessCommand] can go on a line: it is empty and
    ignored; it is answered by one warning; the remainder lies beyond
    its end; or it is executed. *)
Inductive outcome `{Externals} (line : string) : Cmd unit -> Prop :=
| ignored :
    line = "" -> outcome line ([], Ok tt)
| rejected (k : rejection) :
    k <> MissingArguments ->
    outcome line
      ([Logger_Write LogWarning "compat" (rejection_message k ++ line)],
       Ok tt)
| raised (T : string) :
    Str.none_of (Str.is_any_of "]") T = true ->
    line = ("[" ++ T ++ "]")%string ->
    outcome line ([], Throw out_of_range)
| executed (T : string) (c : ascii) (rest : string) :
    Str.none_of (Str.is_any_of "]") T = true ->
    line = ("[" ++ T ++ "]" ++ String c rest)%string ->
    (ToDouble T =? 0)%float = false ->
    let argv := Str.Split rest (Str.is_any_of ";") in
    let name := List.hd "" argv in
    let extra := List.tl argv in
    outcome line
      (Logger_Write LogInformation "compat"
         ("Executing external command: " ++ line)
       :: ExternalCommand_Execute (ToDouble T) name extra
       :: match Execute_raises (ToDouble T) name extra with
          | Some what =>
              [Logger_Write LogWarning "compat"
                 ("External command failed: " ++ what)]
          | None => []
          end,
       Ok tt).

(** A run of [n] characters [c]. *)
Fixpoint run_of (n : nat) (c : ascii) : string :=
  match n with
  | O => ""
  | S n' => String c (run_of n' c)
  end.

(** A platform whose engine knows one command and raises for any
    other. *)
Module Strict.

Definition engine (time : float) (command : string)
    (arguments : list string) : option string :=
  if String.eqb command "SCHEDULE_SVC_CHECK" then None
  else Some ("The external command '" ++ command ++ "' does not exist.")%string.

Definition platform : Externals := {|
  ToDouble := Sample.to_double;
  Execute_raises := engine;
  show_double := Sample.fixed6;
  Utility_GetTime := fun _ => 1700000000%float;
  time_NULL := fun _ => 1700000000%Z;
  Utility_GetPid := 1%Z;
  GetStartTime := 1699990000%float;
  CIB_GetTaskStatistics := fun _ => 0%Z;
  GetLocalStateDir := "/var/lib/icinga2"
|}.

End Strict.

(** * Properties *)

(** ** Facts about strings *)

Module StrFacts.
Import Str.
Local Open Scope string_scope.

Lemma append_nil_r (s : string) : s ++ "" = s.
Proof. induction s as [|c s IH]; simpl; [reflexivity | now rewrite IH]. Qed.

Lemma append_assoc (a b c : string) : (a ++ b) ++ c = a ++ (b ++ c).
Proof. induction a as [|x a IH]; simpl; [reflexivity | now rewrite IH]. Qed.

Lemma length_append (a b : string) :
  String.length (a ++ b) = String.length a + String.length b.
Proof. induction a as [|x a IH]; simpl; [reflexivity | now rewrite IH]. Qed.

Lemma drop_append (a b : string) : drop (String.length a) (a ++ b) = b.
Proof. induction a as [|x a IH]; simpl; [now destruct b | exact IH]. Qed.

Lemma take_append (a b : string) : take (String.length a) (a ++ b) = a.
Proof.
  induction a as [|x a IH]; simpl; [now destruct b | now rewrite IH].
Qed.

Lemma none_of_append p (a b : string) :
  none_of p (a ++ b) = none_of p a && none_of p b.
Proof.
  induction a as [|x a IH]; simpl; [reflexivity|].
  rewrite IH. now rewrite andb_assoc.
Qed.

(** *** [FindFirstOf] *)

Lemma FindFirstOf_first set (a b : string) (c : ascii) :
  none_of (is_any_of set) a = true ->
  is_any_of set c = true ->
  FindFirstOf (a ++ String c b) set = Some (String.length a).
Proof.
  induction a as [|x a IH]; simpl; intros Ha Hc.
  - now rewrite Hc.
  - apply andb_true_iff in Ha as [Hx Ha].
    apply negb_true_iff in Hx. rewrite Hx, (IH Ha Hc). reflexivity.
Qed.

Lemma FindFirstOf_NPos set (s : string) :
  none_of (is_any_of set) s = true -> FindFirstOf s set = NPos.
Proof.
  induction s as [|x s IH]; simpl; intros Hs; [reflexivity|].
  apply andb_true_iff in Hs as [Hx Hs].
  apply negb_true_iff in Hx. rewrite Hx, (IH Hs). reflexivity.
Qed.

(** *** [SubStr] *)

Lemma SubStr_tail (a b : string) :
  SubStr (a ++ b) (String.length a) NPos = Ok b.
Proof.
  unfold SubStr. rewrite length_append.
  replace (String.length a + String.length b <? String.length a)%nat
    with false by (symmetry; apply Nat.ltb_ge; lia).
  simpl. now rewrite drop_append.
Qed.

Lemma SubStr_middle (a b c : string) :
  SubStr (a ++ b ++ c) (String.length a) (Some (String.length b)) = Ok b.
Proof.
  unfold SubStr. rewrite length_append.
  replace (String.length a + String.length (b ++ c) <? String.length a)%nat
    with false by (symmetry; apply Nat.ltb_ge; lia).
  now rewrite drop_append, take_append.
Qed.

Lemma SubStr_beyond (s : string) (first : nat) (len : option nat) :
  String.length s < first -> SubStr s first len = Throw out_of_range.
Proof.
  intros Hlt. unfold SubStr.
  now replace (String.length s <? first)%nat with true
    by (symmetry; apply Nat.ltb_lt; exact Hlt).
Qed.

(** *** [Split] *)

(** The vector [Split] fills is never empty. *)
Lemma Split_not_nil (s : string) p : Split s p <> [].
Proof.
  destruct s as [|c s]; simpl; [discriminate|].
  destruct (p c); [discriminate|].
  destruct (Split s p); discriminate.
Qed.

Lemma Split_token (a : string) p :
  none_of p a = true -> Split a p = [a].
Proof.
  induction a as [|x a IH]; simpl; intros Ha; [reflexivity|].
  apply andb_true_iff in Ha as [Hx Ha].
  apply negb_true_iff in Hx. now rewrite Hx, (IH Ha).
Qed.

Lemma Split_at_separator (a b : string) (c : ascii) p :
  none_of p a = true -> p c = true ->
  Split (a ++ String c b) p = a :: Split b p.
Proof.
  induction a as [|x a IH]; simpl; intros Ha Hc.
  - now rewrite Hc.
  - apply andb_true_iff in Ha as [Hx Ha].
    apply negb_true_iff in Hx. now rewrite Hx, (IH Ha Hc).
Qed.

(** Splitting undoes joining, when no token holds a separator. *)
Lemma Split_join (c : ascii) p (tok : string) (toks : list string) :
  p c = true ->
  forallb (none_of p) (tok :: toks) = true ->
  Split (join (String c "") (tok :: toks)) p = tok :: toks.
Proof.
  intros Hc. revert tok.
  induction toks as [|t toks IH]; intros tok Hall.
  - simpl in *. apply Split_token.
    now apply andb_true_iff in Hall as [Ht _].
  - change (join (String c "") (tok :: t :: toks))
      with (tok ++ String c (join (String c "") (t :: toks))).
    apply andb_true_iff in Hall as [Ht Hall].
    rewrite (Split_at_separator _ _ _ _ Ht Hc).
    now rewrite (IH t Hall).
Qed.

(** *** Lines *)

Lemma in_tl {A} (x : A) (l : list A) : In x (List.tl l) -> In x l.
Proof. destruct l; simpl; [tauto | now right]. Qed.

(** A piece between two line feeds is one of the lines; it is not the
    first one. *)
Lemma line_between (pre l post : string) :
  none_of is_LF l = true ->
  In l (List.tl (lines (pre ++ String LF (l ++ String LF post)))).
Proof.
  intros Hl. unfold lines.
  induction pre as [|x pre IH]; simpl.
  - change (is_LF LF) with true. cbv iota.
    rewrite (Split_at_separator l post LF is_LF Hl eq_refl).
    now left.
  - destruct (is_LF x).
    + simpl. now apply in_tl.
    + destruct (Split (pre ++ String LF (l ++ String LF post)) is_LF);
        [destruct IH | exact IH].
Qed.

Lemma in_lines (pre l post : string) :
  none_of is_LF l = true ->
  In l (lines (pre ++ String LF (l ++ String LF post))).
Proof. intros Hl. apply in_tl. now apply line_between. Qed.

End StrFacts.

(** ** The decoder *)

Section DecoderFacts.
Context `{Externals}.
Import Str StrFacts CmdMonad.
Local Open Scope string_scope.

Lemma closing_bracket_found (T rest : string) :
  none_of (is_any_of "]") T = true ->
  FindFirstOf ("[" ++ T ++ "]" ++ rest) "]" = Some (S (String.length T)).
Proof.
  intros HT. cbn [append FindFirstOf].
  change (is_any_of "]" "[") with false. cbv iota.
  now rewrite (FindFirstOf_first "]" T rest "]" HT eq_refl).
Qed.

(** The closing bracket is never at position 0, so that [pos - 1]
    does not wrap around. *)
Lemma closing_bracket_positive (rest : string) (pos : nat) :
  FindFirstOf (String "[" rest) "]" = Some pos -> 1 <= pos.
Proof.
  cbn [FindFirstOf]. change (is_any_of "]" "[") with false. cbv iota.
  destruct (FindFirstOf rest "]"); simpl; intros [= <-]. lia.
Qed.

Lemma timestamp_field (T rest : string) :
  SubStr ("[" ++ T ++ "]" ++ rest) 1 (Some (S (String.length T) - 1))
  = Ok T.
Proof.
  replace (S (String.length T) - 1) with (String.length T) by lia.
  exact (SubStr_middle "[" T ("]" ++ rest)).
Qed.

Lemma remainder_field (T : string) (c : ascii) (rest : string) :
  SubStr ("[" ++ T ++ "]" ++ String c rest) (S (String.length T) + 2) NPos
  = Ok rest.
Proof.
  replace (S (String.length T) + 2)
    with (String.length ("[" ++ T ++ "]" ++ String c "")).
  - replace ("[" ++ T ++ "]" ++ String c rest)
      with (("[" ++ T ++ "]" ++ String c "") ++ rest).
    + apply SubStr_tail.
    + cbn [append]. f_equal. rewrite append_assoc. reflexivity.
  - cbn [append String.length]. rewrite length_append. simpl. lia.
Qed.

(** Nothing follows the closing bracket: the remainder would start
    beyond the end of the line. *)
Lemma remainder_beyond (T : string) :
  SubStr ("[" ++ T ++ "]") (S (String.length T) + 2) NPos
  = Throw out_of_range.
Proof.
  apply SubStr_beyond.
  cbn [append String.length]. rewrite length_append. simpl. lia.
Qed.

(** The first steps of [ProcessCommand] on a line with a closed
    timestamp field. *)
Ltac enter_bracketed HT :=
  unfold ProcessCommand; cbn [append];
  change (negb (Ascii.eqb "[" "[")) with false; cbv iota;
  match goal with
  | |- context [FindFirstOf (String "[" (?T ++ String "]" ?r)) "]"] =>
      change (String "[" (T ++ String "]" r)) with ("[" ++ T ++ "]" ++ r);
      rewrite (closing_bracket_found T r HT)
  end.

Lemma ProcessCommand_zero_timestamp (T : string) (c : ascii)
    (rest : string) :
  none_of (is_any_of "]") T = true ->
  (ToDouble T =? 0)%float = true ->
  ProcessCommand ("[" ++ T ++ "]" ++ String c rest)
  = ([Logger_Write LogWarning "compat"
        ("Invalid timestamp in command: "
           ++ "[" ++ T ++ "]" ++ String c rest)],
     Ok tt).
Proof.
  intros HT Hzero. enter_bracketed HT.
  rewrite timestamp_field, remainder_field.
  unfold lift, bind. rewrite Hzero. reflexivity.
Qed.

Lemma ProcessCommand_executes (T : string) (c : ascii) (rest : string) :
  none_of (is_any_of "]") T = true ->
  (ToDouble T =? 0)%float = false ->
  let argv := Split rest (is_any_of ";") in
  let name := List.hd "" argv in
  let extra := List.tl argv in
  ProcessCommand ("[" ++ T ++ "]" ++ String c rest)
  = ((Logger_Write LogInformation "compat"
        ("Executing external command: "
           ++ "[" ++ T ++ "]" ++ String c rest)
      :: ExternalCommand_Execute (ToDouble T) name extra
      :: match Execute_raises (ToDouble T) name extra with
         | Some what =>
             [Logger_Write LogWarning "compat"
                ("External command failed: " ++ what)]
         | None => []
         end)%list,
     Ok tt).
Proof.
  intros HT Hnonzero argv name extra. enter_bracketed HT.
  rewrite timestamp_field, remainder_field.
  unfold lift, bind at 1 2. rewrite Hnonzero. cbn [app].
  fold argv.
  destruct argv as [|first others] eqn:Hargv.
  - now apply Split_not_nil in Hargv.
  - subst name extra. cbn [List.length Nat.eqb List.hd List.tl].
    unfold Execute_catch.
    destruct (Execute_raises (ToDouble T) first others); reflexivity.
Qed.

Lemma ProcessCommand_no_remainder (T : string) :
  none_of (is_any_of "]") T = true ->
  ProcessCommand ("[" ++ T ++ "]") = ([], Throw out_of_range).
Proof.
  intros HT. unfold ProcessCommand; cbn [append].
  change (negb (Ascii.eqb "[" "[")) with false; cbv iota.
  change (String "[" (T ++ "]")) with ("[" ++ T ++ "]" ++ "").
  rewrite (closing_bracket_found T "" HT).
  rewrite timestamp_field.
  change ("[" ++ T ++ "]" ++ "") with ("[" ++ T ++ "]").
  rewrite remainder_beyond. reflexivity.
Qed.

End DecoderFacts.

Section DecoderClaims.
Context `{Externals}.
Import Str StrFacts CmdMonad.
Local Open Scope string_scope.

(** A line ["[T] NAME;arg;...;arg"] with any number of arguments. *)
Lemma ProcessCommand_fields (T NAME : string) (arguments : list string) :
  none_of (is_any_of "]") T = true ->
  forallb (none_of (is_any_of ";")) (NAME :: arguments) = true ->
  (ToDouble T =? 0)%float = false ->
  exists trace,
    ProcessCommand ("[" ++ T ++ "] " ++ join ";" (NAME :: arguments))
    = (trace, Ok tt)
    /\ submitted trace = [(ToDouble T, NAME, arguments)].
Proof.
  intros HT Hfields Hnonzero.
  change ("[" ++ T ++ "] " ++ join ";" (NAME :: arguments))
    with ("[" ++ T ++ "]" ++ String " " (join ";" (NAME :: arguments))).
  rewrite (ProcessCommand_executes T " " _ HT Hnonzero).
  rewrite (Split_join ";" (is_any_of ";") NAME arguments eq_refl Hfields).
  cbn [List.hd List.tl]. eexists. split; [reflexivity|].
  cbn [submitted].
  destruct (Execute_raises (ToDouble T) NAME arguments); reflexivity.
Qed.

(** C1.  A well-formed line ["[T] NAME;A;B"] whose timestamp field
    converts to a non-zero number is decoded into the timestamp, the
    command name [NAME] and the arguments [A] and [B], in this order
    and as they stand (empty or with blanks); [ProcessCommand] returns
    and has handed exactly this one command to the execution engine. *)
Theorem ProcessCommand_well_formed (T NAME A B : string) :
  none_of (is_any_of "]") T = true ->
  none_of (is_any_of ";") NAME = true ->
  none_of (is_any_of ";") A = true ->
  none_of (is_any_of ";") B = true ->
  (ToDouble T =? 0)%float = false ->
  exists trace,
    ProcessCommand ("[" ++ T ++ "] " ++ NAME ++ ";" ++ A ++ ";" ++ B)
    = (trace, Ok tt)
    /\ submitted trace = [(ToDouble T, NAME, [A; B])].
Proof.
  intros HT HN HA HB Hnonzero.
  apply (ProcessCommand_fields T NAME [A; B] HT); [|exact Hnonzero].
  cbn [forallb]. now rewrite HN, HA, HB.
Qed.

(** C2, as amended.  A line that is not empty and does not start
    with the opening bracket, or has no closing bracket, is answered
    by the warning "Missing timestamp"; a line whose timestamp field
    converts to zero, with at least one character behind the closing
    bracket, by the warning "Invalid timestamp".  In each case
    [ProcessCommand] returns, this warning is all it does, and nothing
    is handed to the execution engine. *)
Theorem ProcessCommand_rejects (line : string) (k : rejection) :
  malformed line k ->
  ProcessCommand line
  = ([Logger_Write LogWarning "compat" (rejection_message k ++ line)],
     Ok tt)
  /\ submitted (fst (ProcessCommand line)) = [].
Proof.
  intros Hbad.
  assert (Hrun : ProcessCommand line
                 = ([Logger_Write LogWarning "compat"
                       (rejection_message k ++ line)], Ok tt)).
  { destruct Hbad as [c rest Hc | rest Hrest | T c rest HT Hzero].
    - unfold ProcessCommand. rewrite Hc. reflexivity.
    - unfold ProcessCommand.
      change (negb (Ascii.eqb "[" "[")) with false. cbv iota.
      cbn [FindFirstOf]. change (is_any_of "]" "[") with false. cbv iota.
      rewrite (FindFirstOf_NPos "]" rest Hrest). reflexivity.
    - exact (ProcessCommand_zero_timestamp T c rest HT Hzero). }
  split; [exact Hrun | now rewrite Hrun].
Qed.

(** C10.  On the line ["[123]"] the remainder is asked for at
    position 6 of a string of length 5: [SubStr] throws
    [std::out_of_range], outside of the [try] block, and the exception
    leaves [ProcessCommand]. *)
Theorem ProcessCommand_closing_bracket_last :
  ProcessCommand "[123]" = ([], Throw out_of_range).
Proof. exact (ProcessCommand_no_remainder "123" eq_refl). Qed.

(** The check for an empty argument vector never fires: a remainder
    without a command name is executed as the command [""]. *)
Lemma ProcessCommand_empty_name (T : string) (c : ascii) :
  none_of (is_any_of "]") T = true ->
  (ToDouble T =? 0)%float = false ->
  submitted (fst (ProcessCommand ("[" ++ T ++ "]" ++ String c "")))
  = [(ToDouble T, "", [])].
Proof.
  intros HT Hnonzero.
  rewrite (ProcessCommand_executes T c "" HT Hnonzero).
  cbn [Split List.hd List.tl fst submitted].
  destruct (Execute_raises (ToDouble T) "" []); reflexivity.
Qed.

(** No line is answered by the warning "Missing arguments". *)
Lemma ProcessCommand_never_missing_arguments (line : string) :
  ~ In (rejection_message MissingArguments ++ line)
       (warnings (fst (ProcessCommand line))).
Proof.
  unfold ProcessCommand.
  destruct line as [|c0 rest]; [simpl; tauto|].
  destruct (negb (Ascii.eqb c0 "[")); [simpl; intros [[=]|[]]|].
  destruct (FindFirstOf (String c0 rest) "]") as [pos|];
    [|simpl; intros [[=]|[]]].
  destruct (SubStr (String c0 rest) 1 (Some (pos - 1))) as [ts|e];
    [|simpl; tauto].
  destruct (SubStr (String c0 rest) (pos + 2) NPos) as [args|e];
    [|simpl; tauto].
  unfold lift, bind at 1 2. cbn [app].
  destruct (ToDouble ts =? 0)%float; [simpl; intros [[=]|[]]|].
  destruct (Split args (is_any_of ";")) as [|name extra] eqn:Hargv;
    [now apply Split_not_nil in Hargv|].
  cbn [List.length Nat.eqb List.hd List.tl].
  unfold Execute_catch, Write, emit, bind.
  destruct (Execute_raises (ToDouble ts) name extra) as [what|]; simpl.
  - intros [Heq|[]]. discriminate Heq.
  - tauto.
Qed.

End DecoderClaims.

(** Scenario 1 of the specification, on the sample platform. *)
Example scenario_1 :
  @ProcessCommand Sample.platform
    "[1700000000] SCHEDULE_SVC_CHECK;myhost;myservice;1700000100"
  = ([Logger_Write LogInformation "compat"
        "Executing external command: [1700000000] SCHEDULE_SVC_CHECK;myhost;myservice;1700000100";
      ExternalCommand_Execute 1700000000%float "SCHEDULE_SVC_CHECK"
        ["myhost"; "myservice"; "1700000100"]],
     Ok tt).
Proof. vm_compute. reflexivity. Qed.

Lemma ProcessCommand_well_formed_witness :
  exists trace,
    @ProcessCommand Sample.platform "[1700000000] DEL_HOST_COMMENT;; x "
    = (trace, Ok tt)
    /\ submitted trace = [(1700000000%float, "DEL_HOST_COMMENT", [""; " x "])].
Proof.
  apply (@ProcessCommand_well_formed Sample.platform
           "1700000000" "DEL_HOST_COMMENT" "" " x "); reflexivity.
Defined.

(** Scenarios 2 and 3 of the specification. *)
Lemma ProcessCommand_rejects_witness :
  @ProcessCommand Sample.platform "[0] CMD;arg"
  = ([Logger_Write LogWarning "compat"
        "Invalid timestamp in command: [0] CMD;arg"], Ok tt)
  /\ submitted (fst (@ProcessCommand Sample.platform "[0] CMD;arg")) = [].
Proof.
  apply (@ProcessCommand_rejects Sample.platform "[0] CMD;arg"
           InvalidTimestamp).
  exact (@zero_timestamp Sample.platform "0" " " "CMD;arg" eq_refl eq_refl).
Defined.

Example scenario_2 :
  @ProcessCommand Sample.platform "garbage"
  = ([Logger_Write LogWarning "compat"
        "Missing timestamp in command: garbage"], Ok tt).
Proof. reflexivity. Qed.

(** C2, the claim as it was stated: the empty line does not start with
    the opening bracket, yet it is dropped without any report. *)
Lemma empty_line_not_reported :
  Str.starts_with "[" "" = false
  /\ @ProcessCommand Sample.platform "" = ([], Ok tt)
  /\ forall k : rejection,
       @ProcessCommand Sample.platform ""
       <> ([Logger_Write LogWarning "compat" (rejection_message k ++ "")],
           Ok tt).
Proof.
  split; [reflexivity|]. split; [reflexivity|]. intros k. discriminate.
Qed.

(** ** The command pipe *)

Section PipeClaims.
Import Str TraceMonad.

Variable commandPath : string.

(** C8, as amended.  At startup the node at the command path is
    unlinked exactly when [lstat] finds a node that is not a pipe
    with read permission: something that is not a pipe, or a pipe
    that may not be read.  A pipe with read permission is reused as
    it is, with neither [unlink] nor [mkfifo].  After a successful
    [unlink] the pipe is made anew.  A failing [unlink] is fatal: the
    exception leaves the thread, which makes no pipe and opens
    nothing. *)
Theorem pipe_node_removal (fs : PipeNode) (script : list attempt) :
  performs is_unlink (fst (make_pipe commandPath fs))
  = node_exists fs && negb (readable_pipe fs)
  /\ (readable_pipe fs = true ->
      make_pipe commandPath fs
      = ([sys_lstat commandPath; sys_access commandPath], Ok tt))
  /\ (node_exists fs && negb (readable_pipe fs) = true ->
      unlink_ok fs = true ->
      exists before,
        fst (make_pipe commandPath fs)
        = before ++ [sys_unlink commandPath; sys_mkfifo commandPath])
  /\ (node_exists fs && negb (readable_pipe fs) = true ->
      unlink_ok fs = false ->
      let (t, st) := CommandPipeThread commandPath fs script in
      st = Stopped (PosixException "unlink() failed" (setup_errno fs))
      /\ performs is_mkfifo t = false
      /\ performs is_open t = false).
Proof.
  destruct fs as [[[|]|] [|] [|] [|] errno];
    unfold CommandPipeThread, readable_pipe, node_exists; cbn;
    repeat split; intros; try discriminate; try reflexivity;
    try (now exists [sys_lstat commandPath]);
    try (now exists [sys_lstat commandPath; sys_access commandPath]).
Qed.

Lemma serve_writers (served later : list attempt) :
  existsb fails_to_open served = false ->
  serve commandPath (served ++ later)
  = (fst (serve commandPath served) ++ fst (serve commandPath later),
     snd (serve commandPath later)).
Proof.
  induction served as [|a served IH]; intros Hw.
  - simpl. now destruct (serve commandPath later).
  - destruct a as [e|e|reads]; try discriminate Hw.
    simpl in Hw. specialize (IH Hw).
    cbn [serve app]. rewrite IH.
    destruct (serve commandPath served) as [t st]. cbn [fst snd].
    f_equal. cbn [app]. f_equal. f_equal.
    now rewrite <- !app_assoc.
Qed.

Lemma serve_alive (served : list attempt) :
  existsb fails_to_open served = false ->
  snd (serve commandPath served) = Waiting.
Proof.
  induction served as [|a served IH]; intros Hw; [reflexivity|].
  destruct a as [e|e|reads]; try discriminate Hw.
  simpl in Hw. specialize (IH Hw). cbn [serve].
  now destruct (serve commandPath served).
Qed.

Lemma posted_app (t1 t2 : list action) :
  posted (t1 ++ t2) = posted t1 ++ posted t2.
Proof.
  induction t1 as [|a t1 IH]; [reflexivity|].
  destruct a; cbn [app posted]; now rewrite ?IH.
Qed.

Lemma posted_read_lines (reads : list string) :
  posted (read_lines reads) = map strip_eol reads.
Proof.
  induction reads as [|l reads IH]; [reflexivity|].
  cbn [read_lines map posted]. f_equal. exact IH.
Qed.

Lemma count_app p (t1 t2 : list action) :
  count p (t1 ++ t2) = count p t1 + count p t2.
Proof. unfold count. now rewrite filter_app, length_app. Qed.

Lemma count_read_lines p (reads : list string) :
  (forall c, p (Event_Post c) = false) -> count p (read_lines reads) = 0.
Proof.
  intros Hp. unfold count.
  induction reads as [|l reads IH]; [reflexivity|].
  cbn [read_lines map filter]. now rewrite Hp.
Qed.

Lemma serve_posts (served : list attempt) :
  existsb fails_to_open served = false ->
  posted (fst (serve commandPath served))
  = map strip_eol (buffers served).
Proof.
  induction served as [|a served IH]; intros Hw; [reflexivity|].
  destruct a as [e|e|reads]; try discriminate Hw.
  simpl in Hw. specialize (IH Hw). cbn [serve].
  destruct (serve commandPath served) as [t st]. cbn [fst] in *.
  cbn [app posted]. rewrite !posted_app, posted_read_lines.
  cbn [posted app]. rewrite IH.
  unfold buffers. cbn [flat_map]. now rewrite map_app.
Qed.

Lemma serve_reopens (served : list attempt) :
  existsb fails_to_open served = false ->
  count is_open (fst (serve commandPath served)) = List.length served
  /\ count is_fclose (fst (serve commandPath served)) = List.length served.
Proof.
  induction served as [|a served IH]; intros Hw; [now split|].
  destruct a as [e|e|reads]; try discriminate Hw.
  simpl in Hw. destruct (IH Hw) as [IHo IHc]. cbn [serve].
  destruct (serve commandPath served) as [t st]. cbn [fst] in *.
  change ([sys_open commandPath; sys_fdopen]
            ++ read_lines reads ++ [sys_fclose] ++ t)
    with ([sys_open commandPath; sys_fdopen]
            ++ (read_lines reads ++ ([sys_fclose] ++ t))).
  rewrite !count_app, !count_read_lines by reflexivity.
  rewrite IHo, IHc. now split.
Qed.

Lemma serve_stops (script : list attempt) (e : exn) :
  snd (serve commandPath script) = Stopped e ->
  existsb fails_to_open script = true
  /\ exists errno,
       e = PosixException "open() failed" errno
       \/ e = PosixException "fdopen() failed" errno.
Proof.
  induction script as [|a script IH]; [discriminate|].
  destruct a as [errno|errno|reads]; cbn [serve snd existsb fails_to_open].
  - intros [= <-]. split; [reflexivity|]. exists errno. now left.
  - intros [= <-]. split; [reflexivity|]. exists errno. now right.
  - destruct (serve commandPath script) as [t st]. cbn [snd] in *.
    exact IH.
Qed.

(** C9.  Whatever the peers write, and however many of them come and
    go, the read loop lives on: after each end of stream it closes
    the stream, opens the pipe again and serves what follows as a
    loop that has just started would; every buffer read has been
    posted, in order, with its line end cut off.  The loop stops only
    when the pipe cannot be opened ([open] or [fdopen] fails), and the
    thread only for this or because the pipe could not be set up. *)
Theorem read_loop_resilient (served later : list attempt) :
  existsb fails_to_open served = false ->
  serve commandPath (served ++ later)
  = (fst (serve commandPath served) ++ fst (serve commandPath later),
     snd (serve commandPath later))
  /\ snd (serve commandPath served) = Waiting
  /\ posted (fst (serve commandPath served))
     = map strip_eol (buffers served)
  /\ count is_open (fst (serve commandPath served)) = List.length served
  /\ count is_fclose (fst (serve commandPath served)) = List.length served
  /\ (forall e, snd (serve commandPath later) = Stopped e ->
      existsb fails_to_open later = true)
  /\ (forall fs e,
        snd (CommandPipeThread commandPath fs later) = Stopped e ->
        exists errno,
          e = PosixException "unlink() failed" errno
          \/ e = PosixException "mkfifo() failed" errno
          \/ e = PosixException "open() failed" errno
          \/ e = PosixException "fdopen() failed" errno).
Proof.
  intros Hw.
  split; [now apply serve_writers|].
  split; [now apply serve_alive|].
  split; [now apply serve_posts|].
  split; [now apply serve_reopens|].
  split; [now apply serve_reopens|].
  split; [intros e He; now apply serve_stops in He|].
  intros fs e. unfold CommandPipeThread.
  destruct (make_pipe commandPath fs) as [t [[]|e']] eqn:Hmk.
  - destruct (serve commandPath later) as [t' st] eqn:Hs. cbn [snd].
    intros ->.
    assert (He : snd (serve commandPath later) = Stopped e)
      by now rewrite Hs.
    apply serve_stops in He as [_ [errno [He|He]]];
      exists errno; tauto.
  - cbn [snd]. intros [= <-].
    destruct fs as [[[|]|] [|] [|] [|] errno]; cbn in Hmk;
      inversion Hmk; exists errno; tauto.
Qed.

End PipeClaims.

(** C8, the claim as it was stated: a node that is a pipe, but may not
    be read, is removed and made anew. *)
Lemma unreadable_pipe_is_removed :
  lstat_result Sample.unreadable_pipe = Some true
  /\ make_pipe "/var/run/icinga2/icinga.cmd" Sample.unreadable_pipe
     = ([sys_lstat "/var/run/icinga2/icinga.cmd";
         sys_access "/var/run/icinga2/icinga.cmd";
         sys_unlink "/var/run/icinga2/icinga.cmd";
         sys_mkfifo "/var/run/icinga2/icinga.cmd"], Ok tt).
Proof. split; reflexivity. Qed.

Lemma pipe_node_removal_witness :
  let (t, st) :=
    CommandPipeThread "/var/run/icinga2/icinga.cmd" Sample.stuck_file
      [writer ["[1] X"]] in
  st = Stopped (PosixException "unlink() failed" 13)
  /\ performs is_mkfifo t = false
  /\ performs is_open t = false.
Proof.
  exact (proj2 (proj2 (proj2
    (pipe_node_removal "/var/run/icinga2/icinga.cmd" Sample.stuck_file
       [writer ["[1] X"]]))) eq_refl eq_refl).
Defined.

Lemma read_loop_resilient_witness :
  snd (serve "/var/run/icinga2/icinga.cmd"
         [writer [("garbage" ++ Str.nl)%string; ("[123]" ++ Str.nl)%string];
          writer [];
          writer ["[1700000000] A;b"]])
  = Waiting.
Proof.
  exact (proj1 (proj2
    (read_loop_resilient "/var/run/icinga2/icinga.cmd"
       [writer [("garbage" ++ Str.nl)%string; ("[123]" ++ Str.nl)%string];
          writer [];
        writer ["[1700000000] A;b"]]
       [open_fails 24] eq_refl))).
Defined.

(** ** The snapshot writer *)

Module TextFacts.
Import Str StrFacts.
Local Open Scope string_scope.

Lemma cat_app (l1 l2 : list string) : cat (l1 ++ l2)%list = cat l1 ++ cat l2.
Proof.
  induction l1 as [|x l1 IH]; [reflexivity|].
  cbn [app cat fold_right]. fold (cat (l1 ++ l2)%list). fold (cat l1).
  now rewrite IH, append_assoc.
Qed.

Lemma none_of_cat p (l : list string) :
  none_of p (cat l) = forallb (none_of p) l.
Proof.
  induction l as [|x l IH]; [reflexivity|].
  cbn [cat fold_right forallb]. fold (cat l).
  now rewrite none_of_append, IH.
Qed.

(** Decimal numerals hold no line feed. *)
Lemma string_of_uint_line (d : Decimal.uint) :
  none_of is_LF (NilEmpty.string_of_uint d) = true.
Proof. induction d; simpl; auto. Qed.

Lemma show_int_line (z : Z) : none_of is_LF (show_int z) = true.
Proof.
  unfold show_int, NilZero.string_of_int, NilZero.string_of_uint.
  destruct (Z.to_int z) as [d|d]; destruct d; cbn [none_of];
    try reflexivity; apply string_of_uint_line.
Qed.

Lemma cut_at {A} (items : list A) (i : nat) (x : A) :
  nth_error items i = Some x ->
  items = (firstn i items ++ x :: skipn (S i) items)%list.
Proof.
  intros Hi. rewrite <- (firstn_skipn i items) at 1. f_equal.
  revert i Hi.
  induction items as [|y items IH]; intros [|i] Hi; try discriminate.
  - now injection Hi as ->.
  - cbn [skipn]. now apply IH.
Qed.

Lemma nth_error_skipn {A} (items : list A) (i n : nat) :
  nth_error (skipn i items) n = nth_error items (i + n).
Proof.
  revert i. induction items as [|y items IH]; intros [|i];
    try reflexivity.
  - now destruct n.
  - cbn [skipn]. now rewrite IH.
Qed.

(** The pieces before the first line feed make up the first line. *)
Lemma lines_cut (items : list string) (n : nat) :
  nth_error items n = Some nl ->
  none_of is_LF (cat (firstn n items)) = true ->
  lines (cat items)
  = cat (firstn n items) :: lines (cat (skipn (S n) items)).
Proof.
  intros Hn Hline. rewrite (cut_at items n nl Hn) at 1.
  rewrite cat_app. cbn [cat fold_right]. fold (cat (skipn (S n) items)).
  exact (Split_at_separator _ _ LF is_LF Hline eq_refl).
Qed.

(** The pieces between two line feeds of a list of pieces make up a
    line of the text. *)
Lemma line_at (pre post : string) (items : list string) (i n : nat) :
  nth_error items i = Some nl ->
  nth_error items (S (i + n)) = Some nl ->
  let line := cat (firstn n (skipn (S i) items)) in
  none_of is_LF line = true ->
  In line (lines (pre ++ cat items ++ post)).
Proof.
  intros Hi Hn line Hline.
  set (tail := skipn (S i) items) in *.
  assert (Hn' : nth_error tail n = Some nl)
    by (unfold tail; now rewrite nth_error_skipn).
  rewrite (cut_at items i nl Hi). fold tail.
  rewrite (cut_at tail n nl Hn') at 1.
  rewrite cat_app. cbn [cat fold_right].
  fold (cat (firstn n tail ++ nl :: skipn (S n) tail)%list).
  rewrite cat_app. cbn [cat fold_right]. fold (cat (skipn (S n) tail)).
  fold line.
  rewrite !append_assoc.
  rewrite <- (append_assoc pre).
  change (nl ++ line ++ nl ++ cat (skipn (S n) tail) ++ post)
    with (String LF (line ++ String LF (cat (skipn (S n) tail) ++ post))).
  now apply in_lines.
Qed.

End TextFacts.

Section WriterFacts.
Context `{Externals} `{Enumerators}.
Import Str StrFacts TextFacts PubMonad.
Local Open Scope string_scope.

(** Unfolds a writer down to the texts it appends. *)
Ltac run_writer :=
  cbv [host_body service_body hostgroup_body servicegroup_body
       DumpHostStatus DumpHostObject DumpServiceStatus DumpServiceObject
       DumpNameList DumpStringList block written
       bind ret insert consult snd fst
       status_data object_data clock_reads journal].

Lemma host_body_appends (host : Host) (w : PubState) :
  host_body host w
  = (Ok tt,
     mkPub (status_data w
              ++ block statusfp (clock_reads w)
                       (DumpHostStatus statusfp host))
           (object_data w ++ block objectfp 0 (DumpHostObject objectfp host))
           (3 + clock_reads w) (journal w)).
Proof.
  destruct w as [s o k j]. run_writer.
  destruct (GetParents host); cbv [negb]; run_writer;
    cbn [append]; now rewrite ?append_assoc.
Qed.

Lemma service_body_appends (service : Service) (w : PubState) :
  service_body service w
  = (Ok tt,
     mkPub (status_data w
              ++ block statusfp (clock_reads w)
                       (DumpServiceStatus statusfp service))
           (object_data w
              ++ block objectfp 0 (DumpServiceObject objectfp service))
           (1 + clock_reads w) (journal w)).
Proof. destruct w as [s o k j]. run_writer. reflexivity. Qed.

Lemma hostgroup_body_appends (hg : HostGroup) (w : PubState) :
  hostgroup_body hg w
  = (Ok tt,
     mkPub (status_data w)
           (object_data w ++ block objectfp 0 (hostgroup_body hg))
           (clock_reads w) (journal w)).
Proof.
  destruct w as [s o k j]. run_writer.
  cbn [append]. now rewrite ?append_assoc.
Qed.

Lemma servicegroup_body_appends (sg : ServiceGroup) (w : PubState) :
  servicegroup_body sg w
  = (Ok tt,
     mkPub (status_data w)
           (object_data w ++ block objectfp 0 (servicegroup_body sg))
           (clock_reads w) (journal w)).
Proof.
  destruct w as [s o k j]. run_writer.
  cbn [append]. now rewrite ?append_assoc.
Qed.

End WriterFacts.

Section WriterLoops.
Context `{Externals} `{Enumerators}.
Import Str StrFacts TextFacts PubMonad.
Local Open Scope string_scope.

Lemma foreach_appends {A} (body status_writer object_writer : A -> Pub unit)
    (ticks : nat) :
  (forall x w,
     body x w
     = (Ok tt,
        mkPub (status_data w
                 ++ block statusfp (clock_reads w) (status_writer x))
              (object_data w ++ block objectfp 0 (object_writer x))
              (ticks + clock_reads w) (journal w))) ->
  forall (l : list A) (w : PubState),
    foreach l body w
    = (Ok tt,
       mkPub (status_data w
                ++ status_blocks ticks status_writer (clock_reads w) l)
             (object_data w ++ object_blocks object_writer l)
             (ticks * List.length l + clock_reads w) (journal w)).
Proof.
  intros Hbody l. unfold object_blocks.
  induction l as [|x l IH]; intros [s o k j].
  - cbn [foreach ret map cat fold_right List.length status_blocks
         status_data object_data clock_reads journal].
    now rewrite !append_nil_r, Nat.mul_0_r.
  - cbn [foreach]. unfold bind at 1. rewrite Hbody, IH.
    cbn [status_data object_data clock_reads journal map cat fold_right
         List.length status_blocks].
    rewrite !append_assoc. do 2 f_equal. lia.
Qed.

Lemma foreach_objects {A} (body : A -> Pub unit) :
  (forall x w,
     body x w
     = (Ok tt,
        mkPub (status_data w)
              (object_data w ++ block objectfp 0 (body x))
              (clock_reads w) (journal w))) ->
  forall (l : list A) (w : PubState),
    foreach l body w
    = (Ok tt,
       mkPub (status_data w) (object_data w ++ object_blocks body l)
             (clock_reads w) (journal w)).
Proof.
  intros Hbody l. unfold object_blocks.
  induction l as [|x l IH]; intros [s o k j].
  - cbn [foreach ret map cat fold_right
         status_data object_data clock_reads journal].
    now rewrite append_nil_r.
  - cbn [foreach]. unfold bind at 1. rewrite Hbody, IH.
    cbn [status_data object_data clock_reads journal map cat fold_right].
    now rewrite append_assoc.
Qed.

Lemma enumerations_app (j1 j2 : list pub_event) :
  enumerations (j1 ++ j2) = (enumerations j1 ++ enumerations j2)%list.
Proof.
  induction j1 as [|e j1 IH]; [reflexivity|].
  destruct e; cbn [app enumerations]; now rewrite ?IH.
Qed.

(** The state in which a cycle ends. *)
Lemma StatusTimerHandler_state (config : Config) (registry : Registry)
    (rename_errno : string -> string -> option Z) (w0 : PubState) :
  let w := snd (StatusTimerHandler config registry rename_errno w0) in
  let head := snd (StatusTimerHandler config no_objects rename_errno w0) in
  let k := clock_reads w0 in
  status_data w
  = status_data head
      ++ status_blocks 3 (DumpHostStatus statusfp) (1 + k) (Hosts registry)
      ++ status_blocks 1 (DumpServiceStatus statusfp)
           (3 * List.length (Hosts registry) + (1 + k)) (Services registry)
  /\ object_data w
     = object_data head
         ++ object_blocks (DumpHostObject objectfp) (Hosts registry)
         ++ object_blocks hostgroup_body (HostGroups registry)
         ++ object_blocks (DumpServiceObject objectfp) (Services registry)
         ++ object_blocks servicegroup_body (ServiceGroups registry)
  /\ enumerations (journal w)
     = (enumerations (journal w0)
          ++ ["Host"; "HostGroup"; "Service"; "ServiceGroup"])%list.
Proof.
  destruct w0 as [s0 o0 k0 j0].
  destruct registry as [hosts hgs svcs sgs].
  unfold StatusTimerHandler, no_objects, rename.
  cbn [Hosts HostGroups Services ServiceGroups foreach].
  cbv [bind note open insert consult ret
       status_data object_data clock_reads journal].
  rewrite (foreach_appends host_body (DumpHostStatus statusfp)
             (DumpHostObject objectfp) 3 host_body_appends).
  cbv [status_data object_data clock_reads journal].
  rewrite (foreach_objects hostgroup_body hostgroup_body_appends).
  cbv [status_data object_data clock_reads journal].
  rewrite (foreach_appends service_body (DumpServiceStatus statusfp)
             (DumpServiceObject objectfp) 1 service_body_appends).
  cbv [status_data object_data clock_reads journal].
  rewrite (foreach_objects servicegroup_body servicegroup_body_appends).
  cbv [status_data object_data clock_reads journal].
  destruct (rename_errno (GetStatusPath config ++ ".tmp")
              (GetStatusPath config));
    [|destruct (rename_errno (GetObjectsPath config ++ ".tmp")
                  (GetObjectsPath config))];
    cbv [throw snd];
    (split; [now rewrite !append_assoc|]);
    (split; [now rewrite !append_assoc|]);
    rewrite !enumerations_app; cbn [enumerations];
    now rewrite !app_nil_r, <- !app_assoc.
Qed.
End WriterLoops.

Section WriterClaims.
Context `{Externals} `{Enumerators}.
Import Str StrFacts TextFacts PubMonad.
Local Open Scope string_scope.

Lemma line_in_items (items : list string) (i n : nat) :
  nth_error items i = Some nl ->
  nth_error items (S (i + n)) = Some nl ->
  none_of is_LF (cat (firstn n (skipn (S i) items))) = true ->
  In (cat (firstn n (skipn (S i) items))) (lines (cat items)).
Proof.
  intros Hi Hn Hline.
  pose proof (line_at "" "" items i n Hi Hn Hline) as Hin.
  now rewrite append_nil_r in Hin.
Qed.

Lemma join_line (sep : string) (l : list string) :
  none_of is_LF sep = true ->
  forallb (none_of is_LF) l = true ->
  none_of is_LF (join sep l) = true.
Proof.
  intros Hsep. induction l as [|x l IH]; [reflexivity|].
  cbn [forallb]. intros Hall. apply andb_true_iff in Hall as [Hx Hall].
  destruct l as [|y l]; [exact Hx|].
  change (join sep (x :: y :: l)) with (x ++ sep ++ join sep (y :: l)).
  now rewrite !none_of_append, Hx, Hsep, (IH Hall).
Qed.

(** The loop that fills [sglist] lists host name and alias of each
    member, pair after pair. *)
Lemma sglist_of_pairs (members : list Service) :
  sglist_of members
  = flat_map (fun service => [GetName (GetHost service); GetAlias service])
             members.
Proof.
  unfold sglist_of.
  enough (Hgen : forall acc,
             fold_left
               (fun sglist service =>
                  ((sglist ++ [GetName (GetHost service)])
                     ++ [GetAlias service])%list) members acc
             = (acc ++ flat_map
                  (fun service =>
                     [GetName (GetHost service); GetAlias service])
                  members)%list) by exact (Hgen []).
  induction members as [|service members IH]; intros acc.
  - cbn [fold_left flat_map]. now rewrite app_nil_r.
  - cbn [fold_left flat_map]. rewrite IH. now rewrite <- !app_assoc.
Qed.

(** Brings the text of a block into the form [cat items]. *)
Ltac as_items :=
  cbv [host_body service_body hostgroup_body servicegroup_body
       DumpHostStatus DumpHostObject DumpServiceStatus DumpServiceObject
       DumpNameList DumpStringList block written
       bind ret insert consult snd fst
       status_data object_data clock_reads journal];
  cbn [append]; rewrite <- ?cat_app; cbn [app].

(** The line made of the [n] pieces behind the line feed at [i]. *)
Ltac line_of i n :=
  match goal with
  | |- In _ (lines (cat ?items)) => apply (line_in_items items i n)
  end.

(** C4.  The [current_state] written for a service is its state,
    cut down to [StateUnknown]: a state above [StateUnknown] is
    written as [StateUnknown], any other state as it is. *)
Theorem servicestatus_state_clamped (service : Service) (k : nat) :
  In (tab ++ "current_state="
        ++ show_int (Z.min (GetState service) StateUnknown))
     (lines (block statusfp k (DumpServiceStatus statusfp service))).
Proof.
  set (reported := Z.min (GetState service) StateUnknown).
  replace (tab ++ "current_state=" ++ show_int reported)
    with (cat [tab; "current_state="; show_int reported])
    by (cbn [cat fold_right]; now rewrite append_nil_r).
  as_items.
  replace (if (GetState service >? StateUnknown)%Z
           then StateUnknown else GetState service)
    with reported
    by (unfold reported, Z.min, Z.gtb;
        now destruct (GetState service ?= StateUnknown)%Z).
  line_of 32 3; try reflexivity.
  cbn [firstn skipn]. rewrite none_of_cat. cbn [forallb].
  now rewrite show_int_line.
Qed.

(** C5.  The [check_execution_time] written for a service is
    [execution_end - execution_start] of its last check result and
    the [check_latency] is [(schedule_end - schedule_start)] minus
    that execution time; for a service without a check result both
    are exactly 0.  (The lines are found as lines provided the
    rendering of these numbers holds no line feed.) *)
Theorem servicestatus_timing (service : Service) (k : nat) :
  let execution_time :=
    match GetLastCheckResult service with
    | Some r => (execution_end r - execution_start r)%float
    | None => 0%float
    end in
  let latency :=
    match GetLastCheckResult service with
    | Some r => ((schedule_end r - schedule_start r)
                 - (execution_end r - execution_start r))%float
    | None => 0%float
    end in
  none_of is_LF (show_double execution_time) = true ->
  none_of is_LF (show_double latency) = true ->
  In (tab ++ "check_execution_time=" ++ show_double execution_time)
     (lines (block statusfp k (DumpServiceStatus statusfp service)))
  /\ In (tab ++ "check_latency=" ++ show_double latency)
        (lines (block statusfp k (DumpServiceStatus statusfp service))).
Proof.
  intros execution_time latency Het Hlat.
  replace (tab ++ "check_execution_time=" ++ show_double execution_time)
    with (cat [tab; "check_execution_time="; show_double execution_time])
    by (cbn [cat fold_right]; now rewrite append_nil_r).
  replace (tab ++ "check_latency=" ++ show_double latency)
    with (cat [tab; "check_latency="; show_double latency])
    by (cbn [cat fold_right]; now rewrite append_nil_r).
  subst execution_time latency. as_items.
  destruct (GetLastCheckResult service) as [r|].
  - split; [line_of 24 3 | line_of 28 3]; try reflexivity;
      cbn [firstn skipn]; rewrite none_of_cat; cbn [forallb];
      now rewrite ?Het, ?Hlat.
  - change (-1 - -1)%float with 0%float.
    change (0 - 0)%float with 0%float.
    split; [line_of 24 3 | line_of 28 3]; try reflexivity;
      cbn [firstn skipn]; rewrite none_of_cat; cbn [forallb];
      now rewrite ?Het, ?Hlat.
Qed.

(** C6.  A cycle asks the registry for the hosts, then the host
    groups, then the services, then the service groups.  The status
    document is its head followed by the status blocks of the hosts
    and then those of the services; the objects document is its head
    followed by the blocks of the hosts, of the host groups, of the
    services and of the service groups, each in the order of the
    registry.  The members field of a service group lists host name
    and alias of each member service, pair after pair, joined by
    commas. *)
Theorem publish_cycle_order (config : Config) (registry : Registry)
    (rename_errno : string -> string -> option Z) (w0 : PubState) :
  let w := snd (StatusTimerHandler config registry rename_errno w0) in
  let head := snd (StatusTimerHandler config no_objects rename_errno w0) in
  let k := clock_reads w0 in
  enumerations (journal w)
  = (enumerations (journal w0)
       ++ ["Host"; "HostGroup"; "Service"; "ServiceGroup"])%list
  /\ status_data w
     = status_data head
         ++ status_blocks 3 (DumpHostStatus statusfp) (1 + k)
              (Hosts registry)
         ++ status_blocks 1 (DumpServiceStatus statusfp)
              (3 * List.length (Hosts registry) + (1 + k))
              (Services registry)
  /\ object_data w
     = object_data head
         ++ object_blocks (DumpHostObject objectfp) (Hosts registry)
         ++ object_blocks hostgroup_body (HostGroups registry)
         ++ object_blocks (DumpServiceObject objectfp) (Services registry)
         ++ object_blocks servicegroup_body (ServiceGroups registry)
  /\ forall sg : ServiceGroup,
       block objectfp 0 (servicegroup_body sg)
       = cat [ "define servicegroup {"; nl;
               tab; "servicegroup_name"; tab; GetName sg; nl;
               tab; "alias"; tab; GetAlias sg; nl;
               tab; "notes_url"; tab; ServiceGroup_GetNotesUrl sg; nl;
               tab; "action_url"; tab; ServiceGroup_GetActionUrl sg; nl;
               tab; "members"; tab; servicegroup_members sg; nl;
               "}"; nl ].
Proof.
  intros w head k.
  destruct (StatusTimerHandler_state config registry rename_errno w0)
    as (Hstatus & Hobjects & Horder).
  repeat split; try assumption.
  intros sg. as_items. unfold servicegroup_members.
  now rewrite sglist_of_pairs.
Qed.

(** C7.  The status document of a registry with a single host holds
    the [hoststatus] block of this host; the block says
    [has_been_checked=1], and its [current_state] is 2 for a host
    that is not reachable, 1 for a reachable host that is not up and
    0 otherwise, whatever the services of the registry and their
    check results are. *)
Theorem hoststatus_of_single_host (config : Config) (host : Host)
    (hgs : list HostGroup) (services : list Service)
    (sgs : list ServiceGroup)
    (rename_errno : string -> string -> option Z) (w0 : PubState) :
  let registry :=
    {| Hosts := [host]; HostGroups := hgs; Services := services;
       ServiceGroups := sgs |} in
  let hoststatus :=
    block statusfp (1 + clock_reads w0) (DumpHostStatus statusfp host) in
  (exists head rest,
     status_data (snd (StatusTimerHandler config registry rename_errno w0))
     = head ++ hoststatus ++ rest)
  /\ In (tab ++ "has_been_checked=1") (lines hoststatus)
  /\ In (tab ++ "current_state="
           ++ (if negb (IsReachable host) then "2"
               else if negb (IsUp host) then "1" else "0"))
        (lines hoststatus).
Proof.
  intros registry hoststatus. split; [|split].
  - destruct (StatusTimerHandler_state config registry rename_errno w0)
      as (Hstatus & _ & _).
    rewrite Hstatus. cbn [Hosts registry status_blocks].
    rewrite append_nil_r. eexists. eexists. reflexivity.
  - subst hoststatus. as_items.
    change (tab ++ "has_been_checked=1")
      with (cat [tab; "has_been_checked=1"]).
    line_of 5 2; reflexivity.
  - subst hoststatus. as_items.
    destruct (IsReachable host), (IsUp host); cbn [negb];
      line_of 17 3; reflexivity.
Qed.

(** C3, as amended.  The [members] field of a host group is always
    written and holds the names of the members joined by commas,
    nothing when there are none.  The [parents] field of a host holds
    the names of the parents joined by commas when there are some;
    for a host without parents no [parents] field is written.  (Names
    and alias are taken to hold no line feed.) *)
Theorem list_valued_fields (host : Host) (hg : HostGroup) :
  forallb (none_of is_LF) (map GetName (HostGroup_GetMembers hg)) = true ->
  forallb (none_of is_LF) (map GetName (GetParents host)) = true ->
  none_of is_LF (GetName host) = true ->
  none_of is_LF (GetAlias host) = true ->
  In (tab ++ "members" ++ tab
        ++ join "," (map GetName (HostGroup_GetMembers hg)))
     (lines (block objectfp 0 (hostgroup_body hg)))
  /\ match GetParents host with
     | [] =>
         existsb (starts_with (tab ++ "parents"))
                 (lines (block objectfp 0 (DumpHostObject objectfp host)))
         = false
     | _ :: _ =>
         In (tab ++ "parents" ++ tab
               ++ join "," (map GetName (GetParents host)))
            (lines (block objectfp 0 (DumpHostObject objectfp host)))
     end.
Proof.
  intros Hmembers Hparents Hname Halias.
  split.
  - replace (tab ++ "members" ++ tab
               ++ join "," (map GetName (HostGroup_GetMembers hg)))
      with (cat [tab; "members"; tab;
                 join "," (map GetName (HostGroup_GetMembers hg))])
      by (cbn [cat fold_right]; now rewrite append_nil_r).
    as_items. line_of 21 4; try reflexivity.
    cbn [firstn skipn]. rewrite none_of_cat. cbn [forallb].
    now rewrite join_line.
  - destruct (GetParents host) as [|parent parents] eqn:Hp.
    + as_items. rewrite Hp. cbn [negb]. as_items.
      rewrite (lines_cut _ 1) by reflexivity. cbn [firstn skipn].
      rewrite (lines_cut _ 4)
        by (try reflexivity; cbn [firstn]; rewrite none_of_cat;
            cbn [forallb]; now rewrite ?Hname, ?Halias).
      cbn [firstn skipn].
      rewrite (lines_cut _ 4)
        by (try reflexivity; cbn [firstn]; rewrite none_of_cat;
            cbn [forallb]; now rewrite ?Hname, ?Halias).
      cbn [firstn skipn].
      do 5 (rewrite (lines_cut _ 4) by reflexivity; cbn [firstn skipn]).
      rewrite (lines_cut _ 2) by reflexivity. cbn [firstn skipn].
      rewrite (lines_cut _ 0) by reflexivity. cbn [firstn skipn].
      cbn [existsb cat fold_right]. rewrite !append_nil_r.
      reflexivity.
    + replace (tab ++ "parents" ++ tab
                 ++ join "," (map GetName (parent :: parents)))
        with (cat [tab; "parents"; tab;
                   join "," (map GetName (parent :: parents))])
        by (cbn [cat fold_right]; now rewrite append_nil_r).
      as_items. rewrite Hp. cbn [negb]. as_items.
      line_of 36 4; try reflexivity.
      cbn [firstn skipn]. rewrite none_of_cat. cbn [forallb].
    now rewrite join_line.
Qed.

End WriterClaims.

(** ** The writers on the sample objects *)

(** C3, the claim as it was stated: a host without parents gets a
    block without any [parents] field. *)
Lemma host_without_parents_omits_field :
  GetParents Sample.localhost = []
  /\ Str.lines (block objectfp 0 (DumpHostObject objectfp Sample.localhost))
     = [ "define host {";
         Str.tab ++ "host_name" ++ Str.tab ++ "localhost";
         Str.tab ++ "alias" ++ Str.tab ++ "Local host";
         Str.tab ++ "check_interval" ++ Str.tab ++ "1";
         Str.tab ++ "retry_interval" ++ Str.tab ++ "1";
         Str.tab ++ "max_check_attempts" ++ Str.tab ++ "1";
         Str.tab ++ "active_checks_enabled" ++ Str.tab ++ "1";
         Str.tab ++ "passive_checks_enabled" ++ Str.tab ++ "1";
         Str.tab ++ "}";
         "";
         "" ]%string
  /\ existsb (Str.starts_with (Str.tab ++ "parents"))
       (Str.lines (block objectfp 0
                     (DumpHostObject objectfp Sample.localhost)))
     = false.
Proof. repeat split. Qed.

Lemma list_valued_fields_witness :
  In (Str.tab ++ "members" ++ Str.tab ++ "web,localhost")%string
     (Str.lines (block objectfp 0 (hostgroup_body Sample.servers)))
  /\ In (Str.tab ++ "parents" ++ Str.tab ++ "gw,localhost")%string
        (Str.lines (block objectfp 0 (DumpHostObject objectfp Sample.web))).
Proof.
  exact (list_valued_fields Sample.web Sample.servers
           eq_refl eq_refl eq_refl eq_refl).
Defined.

Lemma servicestatus_timing_witness :
  In (Str.tab ++ "check_execution_time=1.250000")%string
     (Str.lines
        (block statusfp 0
           (@DumpServiceStatus Sample.platform Sample.enumerators statusfp
              (Sample.ping Sample.localhost (Some Sample.a_result) 2))))
  /\ In (Str.tab ++ "check_latency=1.250000")%string
        (Str.lines
           (block statusfp 0
              (@DumpServiceStatus Sample.platform Sample.enumerators statusfp
                 (Sample.ping Sample.localhost (Some Sample.a_result) 2)))).
Proof.
  exact (@servicestatus_timing Sample.platform Sample.enumerators
           (Sample.ping Sample.localhost (Some Sample.a_result) 2) 0
           eq_refl eq_refl).
Defined.

(** A service that was never checked, in a state above [StateUnknown]. *)
Example unchecked_service :
  let text :=
    block statusfp 0
      (@DumpServiceStatus Sample.platform Sample.enumerators statusfp
         (Sample.ping Sample.web None 4)) in
  existsb (String.eqb (Str.tab ++ "check_execution_time=0.000000"))
          (Str.lines text) = true
  /\ existsb (String.eqb (Str.tab ++ "check_latency=0.000000"))
             (Str.lines text) = true
  /\ existsb (String.eqb (Str.tab ++ "current_state=3")) (Str.lines text)
     = true.
Proof. vm_compute. repeat split. Qed.

(** The members of a service group, pair after pair. *)
Example servicegroup_pairs :
  existsb (String.eqb (Str.tab ++ "members" ++ Str.tab
                         ++ "web,ping,localhost,ping"))
          (Str.lines (block objectfp 0 (servicegroup_body Sample.pings)))
  = true.
Proof. vm_compute. reflexivity. Qed.

(** A whole cycle on the sample registry, with a second [rename] that
    fails: the documents are written, the first one is published, and
    the exception leaves the handler. *)
Example sample_cycle :
  let run :=
    @StatusTimerHandler Sample.platform Sample.enumerators Sample.config
      Sample.registry
      (fun from _ =>
         if String.eqb from "/var/cache/icinga2/objects.cache.tmp"
         then Some 13%Z else None)
      fresh in
  fst run = Throw (PosixException "rename() failed" 13)
  /\ clock_reads (snd run) = 9
  /\ journal (snd run)
     = [ pub_log LogInformation "compat" "Writing compat status information";
         pub_open statusfp "/var/lib/icinga2/status.dat.tmp";
         pub_open objectfp "/var/cache/icinga2/objects.cache.tmp";
         pub_enumerate "Host"; pub_enumerate "HostGroup";
         pub_enumerate "Service"; pub_enumerate "ServiceGroup";
         pub_close statusfp; pub_close objectfp; pub_close statusfp;
         pub_rename "/var/lib/icinga2/status.dat.tmp"
                    "/var/lib/icinga2/status.dat";
         pub_close objectfp;
         pub_rename "/var/cache/icinga2/objects.cache.tmp"
                    "/var/cache/icinga2/objects.cache" ].
Proof. vm_compute. repeat split. Qed.

(** * Further properties *)

(** ** The decoder on arbitrary lines *)

Section DecoderMore.
Context `{Externals}.
Import Str StrFacts CmdMonad.
Local Open Scope string_scope.

(** No token of [Split] holds a separator. *)
Lemma Split_tokens_clean (s : string) p :
  forallb (none_of p) (Split s p) = true.
Proof.
  induction s as [|x s IH]; [reflexivity|].
  cbn [Split]. destruct (p x) eqn:Hx.
  - cbn [forallb none_of]. exact IH.
  - destruct (Split s p) as [|tok toks]; cbn [forallb none_of] in *.
    + now rewrite Hx.
    + now rewrite Hx.
Qed.

Lemma join_grow (sep : string) (x : ascii) (tok : string)
    (toks : list string) :
  join sep (String x tok :: toks) = String x (join sep (tok :: toks)).
Proof. destruct toks; reflexivity. Qed.

(** Joining the tokens with the separator gives the input back. *)
Lemma join_Split (c : ascii) p (s : string) :
  (forall x, p x = true -> x = c) ->
  join (String c "") (Split s p) = s.
Proof.
  intros Hp. induction s as [|x s IH]; [reflexivity|].
  cbn [Split]. destruct (p x) eqn:Hx.
  - apply Hp in Hx as ->.
    destruct (Split s p) as [|tok toks] eqn:Hs;
      [now apply Split_not_nil in Hs|].
    change (join (String c "") ("" :: tok :: toks))
      with (String c (join (String c "") (tok :: toks))).
    now rewrite IH.
  - destruct (Split s p) as [|tok toks] eqn:Hs;
      [now apply Split_not_nil in Hs|].
    now rewrite join_grow, IH.
Qed.

Lemma only_semicolon (x : ascii) : is_any_of ";" x = true -> x = ";"%char.
Proof.
  cbn [is_any_of]. rewrite orb_false_r. apply Ascii.eqb_eq.
Qed.

(** A string holds no closing bracket, or it splits at its first one. *)
Lemma bracket_shape (rest : string) :
  none_of (is_any_of "]") rest = true
  \/ exists T tail,
       rest = T ++ "]" ++ tail /\ none_of (is_any_of "]") T = true.
Proof.
  induction rest as [|x rest IH]; [now left|].
  destruct (is_any_of "]" x) eqn:Hx.
  - right. exists "", rest. split; [|reflexivity].
    cbn [is_any_of] in Hx. rewrite orb_false_r in Hx.
    apply Ascii.eqb_eq in Hx as ->. reflexivity.
  - destruct IH as [Hnone | (T & tail & -> & HT)].
    + left. cbn [none_of]. now rewrite Hx, Hnone.
    + right. exists (String x T), tail. split; [reflexivity|].
      cbn [none_of]. now rewrite Hx, HT.
Qed.

(** Every line goes one of the four ways. *)
Lemma ProcessCommand_outcome (line : string) :
  outcome line (ProcessCommand line).
Proof.
  destruct line as [|c0 rest]; [now apply ignored|].
  destruct (Ascii.eqb c0 "[") eqn:Hc0.
  - apply Ascii.eqb_eq in Hc0 as ->.
    destruct (bracket_shape rest) as [Hnone | (T & tail & -> & HT)].
    + replace (ProcessCommand (String "[" rest))
        with ([Logger_Write LogWarning "compat"
                 (rejection_message MissingTimestamp ++ String "[" rest)],
              @Ok unit tt); [now apply rejected|].
      unfold ProcessCommand.
      change (negb (Ascii.eqb "[" "[")) with false. cbv iota.
      cbn [FindFirstOf]. change (is_any_of "]" "[") with false. cbv iota.
      now rewrite (FindFirstOf_NPos "]" rest Hnone).
    + change (String "[" (T ++ "]" ++ tail)) with ("[" ++ T ++ "]" ++ tail).
      destruct tail as [|c tail].
      * change ("[" ++ T ++ "]" ++ "") with ("[" ++ T ++ "]").
        rewrite (ProcessCommand_no_remainder T HT).
        now apply (raised _ T).
      * destruct (ToDouble T =? 0)%float eqn:Hts.
        -- rewrite (ProcessCommand_zero_timestamp T c tail HT Hts).
           now apply (rejected _ InvalidTimestamp).
        -- rewrite (ProcessCommand_executes T c tail HT Hts).
           now apply (executed _ T c tail).
  - replace (ProcessCommand (String c0 rest))
      with ([Logger_Write LogWarning "compat"
               (rejection_message MissingTimestamp ++ String c0 rest)],
            @Ok unit tt); [now apply rejected|].
    unfold ProcessCommand. now rewrite Hc0.
Qed.


(** X1.  A line ["[T] NAME;arg;...;arg"] with any number of arguments,
    none of them holding a semicolon, and a timestamp that does not
    convert to zero: exactly the command [NAME] with these arguments is
    handed to the engine. *)
Theorem ProcessCommand_any_arity (T NAME : string)
    (arguments : list string) :
  none_of (is_any_of "]") T = true ->
  forallb (none_of (is_any_of ";")) (NAME :: arguments) = true ->
  (ToDouble T =? 0)%float = false ->
  submitted
    (fst (ProcessCommand ("[" ++ T ++ "] " ++ join ";" (NAME :: arguments))))
  = [(ToDouble T, NAME, arguments)]
  /\ snd (ProcessCommand ("[" ++ T ++ "] " ++ join ";" (NAME :: arguments)))
     = Ok tt.
Proof.
  intros HT Hfields Hnonzero.
  destruct (ProcessCommand_fields T NAME arguments HT Hfields Hnonzero)
    as (trace & -> & Hsub).
  now split.
Qed.

(** X2.  Whatever follows the timestamp field, nothing of it is lost
    or changed on the way to the engine: the name and the arguments
    handed over hold no semicolon, and joined by semicolons they are
    the remainder of the line. *)
Theorem ProcessCommand_lossless (T : string) (c : ascii) (rest : string) :
  none_of (is_any_of "]") T = true ->
  (ToDouble T =? 0)%float = false ->
  exists name arguments,
    submitted (fst (ProcessCommand ("[" ++ T ++ "]" ++ String c rest)))
    = [(ToDouble T, name, arguments)]
    /\ join ";" (name :: arguments) = rest
    /\ forallb (none_of (is_any_of ";")) (name :: arguments) = true.
Proof.
  intros HT Hnonzero.
  rewrite (ProcessCommand_executes T c rest HT Hnonzero).
  pose proof (join_Split ";" (is_any_of ";") rest only_semicolon) as Hjoin.
  pose proof (Split_tokens_clean rest (is_any_of ";")) as Hclean.
  destruct (Split rest (is_any_of ";")) as [|name arguments] eqn:Hargv;
    [now apply Split_not_nil in Hargv|].
  exists name, arguments. cbn [List.hd List.tl fst submitted].
  repeat split; try assumption.
  destruct (Execute_raises (ToDouble T) name arguments); reflexivity.
Qed.

(** X3.  [ProcessCommand] returns on every line but those that start
    with the opening bracket and end with their first closing bracket;
    on these, and only on these, it throws [std::out_of_range].  No
    exception of the engine leaves it. *)
Theorem ProcessCommand_raises_exactly (line : string) :
  (snd (ProcessCommand line) = Ok tt
   \/ snd (ProcessCommand line) = Throw out_of_range)
  /\ (snd (ProcessCommand line) = Throw out_of_range
      <-> exists T, none_of (is_any_of "]") T = true
                    /\ line = "[" ++ T ++ "]").
Proof.
  split.
  - destruct (ProcessCommand_outcome line); cbn [snd]; tauto.
  - split.
    + destruct (ProcessCommand_outcome line) as [| | T HT Hline |];
        cbn [snd]; try discriminate.
      intros _. now exists T.
    + intros (T & HT & ->). now rewrite (ProcessCommand_no_remainder T HT).
Qed.

(** X4.  A line leads to at most one call of the engine, and never to
    one with a timestamp equal to zero. *)
Theorem ProcessCommand_submits_once (line : string) :
  (List.length (submitted (fst (ProcessCommand line))) <= 1)%nat
  /\ forallb (fun cmd => negb (fst (fst cmd) =? 0)%float)
             (submitted (fst (ProcessCommand line))) = true.
Proof.
  destruct (ProcessCommand_outcome line)
    as [| | |T c rest HT Hline Hnonzero argv name extra];
    cbn [fst submitted List.length forallb]; try (split; [lia|reflexivity]).
  destruct (Execute_raises (ToDouble T) name extra);
    cbn [submitted List.length forallb fst]; rewrite Hnonzero;
    (split; [lia|reflexivity]).
Qed.

(** X5.  When the engine raises an exception on the decoded command,
    [ProcessCommand] logs the warning "External command failed" with
    the message of the exception, after the call, and returns. *)
Theorem ProcessCommand_engine_failure (T : string) (c : ascii)
    (rest what : string) :
  none_of (is_any_of "]") T = true ->
  (ToDouble T =? 0)%float = false ->
  Execute_raises (ToDouble T)
    (List.hd "" (Split rest (is_any_of ";")))
    (List.tl (Split rest (is_any_of ";"))) = Some what ->
  ProcessCommand ("[" ++ T ++ "]" ++ String c rest)
  = ([Logger_Write LogInformation "compat"
        ("Executing external command: " ++ "[" ++ T ++ "]" ++ String c rest);
      ExternalCommand_Execute (ToDouble T)
        (List.hd "" (Split rest (is_any_of ";")))
        (List.tl (Split rest (is_any_of ";")));
      Logger_Write LogWarning "compat"
        ("External command failed: " ++ what)],
     Ok tt).
Proof.
  intros HT Hnonzero Hraise.
  rewrite (ProcessCommand_executes T c rest HT Hnonzero).
  cbv zeta. now rewrite Hraise.
Qed.

(** X6.  The character behind the closing bracket is skipped without
    being looked at: whatever it is, the same command is handed to the
    engine and the result is the same. *)
Theorem ProcessCommand_skips_any_character (T : string) (c c' : ascii)
    (rest : string) :
  none_of (is_any_of "]") T = true ->
  submitted (fst (ProcessCommand ("[" ++ T ++ "]" ++ String c rest)))
  = submitted (fst (ProcessCommand ("[" ++ T ++ "]" ++ String c' rest)))
  /\ snd (ProcessCommand ("[" ++ T ++ "]" ++ String c rest))
     = snd (ProcessCommand ("[" ++ T ++ "]" ++ String c' rest)).
Proof.
  intros HT. destruct (ToDouble T =? 0)%float eqn:Hts.
  - rewrite !(ProcessCommand_zero_timestamp T _ rest HT Hts). now split.
  - rewrite !(ProcessCommand_executes T _ rest HT Hts). now split.
Qed.

(** X7.  No line at all is answered by the warning "Missing
    arguments": the test for an empty argument vector never holds. *)
Theorem ProcessCommand_no_missing_arguments (line : string) :
  forallb (fun warning => negb (starts_with "Missing arguments" warning))
          (warnings (fst (ProcessCommand line))) = true.
Proof.
  destruct (ProcessCommand_outcome line)
    as [|k Hk| |T c rest HT Hline Hnonzero argv name extra];
    cbn [fst warnings forallb]; try reflexivity.
  - destruct k; try reflexivity. now elim Hk.
  - destruct (Execute_raises (ToDouble T) name extra); reflexivity.
Qed.

End DecoderMore.

Lemma ProcessCommand_any_arity_witness :
  submitted
    (fst (@ProcessCommand Sample.platform
            "[1700000000] SCHEDULE_SVC_CHECK;myhost;myservice;1700000100"))
  = [(1700000000%float, "SCHEDULE_SVC_CHECK",
      ["myhost"; "myservice"; "1700000100"])]
  /\ snd (@ProcessCommand Sample.platform
            "[1700000000] SCHEDULE_SVC_CHECK;myhost;myservice;1700000100")
     = Ok tt.
Proof.
  exact (@ProcessCommand_any_arity Sample.platform "1700000000"
           "SCHEDULE_SVC_CHECK" ["myhost"; "myservice"; "1700000100"]
           eq_refl eq_refl eq_refl).
Defined.

Lemma ProcessCommand_lossless_witness :
  exists name arguments,
    submitted (fst (@ProcessCommand Sample.platform "[7] ;;a b; "))
    = [(7%float, name, arguments)]
    /\ Str.join ";" (name :: arguments) = ";;a b; "
    /\ forallb (Str.none_of (Str.is_any_of ";")) (name :: arguments) = true.
Proof.
  exact (@ProcessCommand_lossless Sample.platform "7" " " ";;a b; "
           eq_refl eq_refl).
Defined.

Lemma ProcessCommand_engine_failure_witness :
  @ProcessCommand Strict.platform "[1700000000] NO_SUCH_COMMAND;x"
  = ([Logger_Write LogInformation "compat"
        "Executing external command: [1700000000] NO_SUCH_COMMAND;x";
      ExternalCommand_Execute 1700000000%float "NO_SUCH_COMMAND" ["x"];
      Logger_Write LogWarning "compat"
        "External command failed: The external command 'NO_SUCH_COMMAND' does not exist."],
     Ok tt).
Proof.
  exact (@ProcessCommand_engine_failure Strict.platform "1700000000" " "
           "NO_SUCH_COMMAND;x"
           "The external command 'NO_SUCH_COMMAND' does not exist."
           eq_refl eq_refl eq_refl).
Defined.

Lemma ProcessCommand_skips_any_character_witness :
  submitted (fst (@ProcessCommand Sample.platform "[5]XCMD;a"))
  = submitted (fst (@ProcessCommand Sample.platform "[5] CMD;a"))
  /\ snd (@ProcessCommand Sample.platform "[5]XCMD;a")
     = snd (@ProcessCommand Sample.platform "[5] CMD;a").
Proof.
  exact (@ProcessCommand_skips_any_character Sample.platform "5" "X" " "
           "CMD;a" eq_refl).
Defined.

(** ** The command pipe: line ends, descriptors, failures *)

Section PipeMore.
Import Str StrFacts TraceMonad.
Local Open Scope string_scope.

Variable commandPath : string.

Lemma strip_eol_trail (line : string) :
  exists trail, line = strip_eol line ++ trail /\ all_eol trail = true.
Proof.
  induction line as [|c rest (trail & Hrest & Htrail)];
    [now exists ""|].
  cbn [strip_eol]. destruct (strip_eol rest) as [|k kept] eqn:Hs.
  - cbn [append] in Hrest. subst trail.
    destruct (is_eol c) eqn:Hc.
    + exists (String c rest). split; [reflexivity|].
      unfold all_eol in *. cbn [none_of]. now rewrite Hc, Htrail.
    + exists rest. now split.
  - exists trail. split; [|exact Htrail].
    rewrite Hrest at 1. reflexivity.
Qed.

Lemma strip_eol_clean (line : string) :
  ends_with_eol (strip_eol line) = false.
Proof.
  induction line as [|c rest IH]; [reflexivity|].
  cbn [strip_eol]. destruct (strip_eol rest) as [|k kept].
  - destruct (is_eol c) eqn:Hc; [reflexivity | exact Hc].
  - exact IH.
Qed.

Lemma strip_eol_fixed (s : string) :
  ends_with_eol s = false -> strip_eol s = s.
Proof.
  induction s as [|c rest IH]; [reflexivity|].
  destruct rest as [|d rest].
  - cbn. now intros ->.
  - intros Hend. change (ends_with_eol (String d rest) = false) in Hend.
    cbn [strip_eol] in *. rewrite (IH Hend). reflexivity.
Qed.

Lemma strip_eol_append_eol (s trail : string) :
  all_eol trail = true -> strip_eol (s ++ trail) = strip_eol s.
Proof.
  intros Htrail.
  assert (Hnil : strip_eol trail = "").
  { unfold all_eol in Htrail.
    induction trail as [|c trail IH]; [reflexivity|].
    cbn [none_of] in Htrail. apply andb_true_iff in Htrail as [Hc Htrail].
    apply negb_true_iff, negb_false_iff in Hc.
    cbn [strip_eol]. now rewrite (IH Htrail), Hc. }
  induction s as [|c s IH]; [exact Hnil|].
  cbn [append strip_eol]. now rewrite IH.
Qed.

Lemma length_strip_eol (s : string) :
  String.length (strip_eol s) <= String.length s.
Proof.
  induction s as [|c s IH]; [reflexivity|].
  cbn [strip_eol]. destruct (strip_eol s) as [|k kept].
  - destruct (is_eol c); cbn [String.length]; lia.
  - cbn [String.length] in *. lia.
Qed.

(** X8.  The loop that strips a buffer cuts off exactly its trailing
    carriage returns and line feeds: what is left does not end in a
    line end, the rest of the buffer is untouched, and stripping again
    changes nothing. *)
Theorem strip_eol_exact (line : string) :
  (exists trail,
     line = strip_eol line ++ trail /\ all_eol trail = true)
  /\ ends_with_eol (strip_eol line) = false
  /\ strip_eol (strip_eol line) = strip_eol line.
Proof.
  split; [apply strip_eol_trail|].
  split; [apply strip_eol_clean|].
  apply strip_eol_fixed, strip_eol_clean.
Qed.

(** X9.  The pipe is ready exactly when a readable pipe was found, or
    when nothing stood in the way (no node, or a node that could be
    removed) and [mkfifo] succeeded; [mkfifo] is called exactly when no
    readable pipe was found and nothing stood in the way. *)
Theorem make_pipe_succeeds (fs : PipeNode) :
  returned (snd (make_pipe commandPath fs))
  = readable_pipe fs
    || ((negb (node_exists fs) || unlink_ok fs) && mkfifo_ok fs)
  /\ performs is_mkfifo (fst (make_pipe commandPath fs))
     = negb (readable_pipe fs) && (negb (node_exists fs) || unlink_ok fs).
Proof.
  destruct fs as [[[|]|] [|] [|] [|] errno]; split; reflexivity.
Qed.

Lemma serve_opens (script : list attempt) :
  performs is_open (fst (serve commandPath script))
  = negb (match script with [] => true | _ => false end).
Proof.
  destruct script as [|[errno|errno|reads] script]; try reflexivity.
  cbn [serve]. now destruct (serve commandPath script).
Qed.

(** X10.  The thread first asks [lstat] about the command path, and it
    opens the pipe only after the pipe has been found or made. *)
Theorem CommandPipeThread_opens_after_setup (fs : PipeNode)
    (script : list attempt) :
  List.hd_error (fst (CommandPipeThread commandPath fs script))
  = Some (sys_lstat commandPath)
  /\ performs is_open (fst (CommandPipeThread commandPath fs script))
     = returned (snd (make_pipe commandPath fs))
       && negb (match script with [] => true | _ => false end).
Proof.
  pose proof (serve_opens script) as Hopen.
  unfold CommandPipeThread.
  destruct (serve commandPath script) as [t st]. cbn [fst] in Hopen.
  destruct fs as [[[|]|] [|] [|] [|] errno]; cbn; split;
    try reflexivity; exact Hopen.
Qed.

(** X11.  The first [open] or [fdopen] that fails ends the loop: what
    the script holds behind it is never attempted. *)
Theorem serve_stops_at_first_failure (served later : list attempt)
    (errno : Z) :
  existsb fails_to_open served = false ->
  serve commandPath (served ++ open_fails errno :: later)
  = ((fst (serve commandPath served) ++ [sys_open commandPath])%list,
     Stopped (PosixException "open() failed" errno))
  /\ serve commandPath (served ++ fdopen_fails errno :: later)
     = ((fst (serve commandPath served)
           ++ [sys_open commandPath; sys_fdopen; sys_close])%list,
        Stopped (PosixException "fdopen() failed" errno)).
Proof.
  intros Hw. split; now rewrite (serve_writers commandPath _ _ Hw).
Qed.

(** X12.  No descriptor is lost: in every run of the thread each
    descriptor that [open] delivered is closed, by [fclose] after the
    end of the stream or by [close] when [fdopen] failed. *)
Theorem descriptors_balanced (fs : PipeNode) (script : list attempt) :
  let t := fst (CommandPipeThread commandPath fs script) in
  count is_fdopen t = count is_fclose t + count is_close t.
Proof.
  assert (Hserve : forall script t st,
             serve commandPath script = (t, st) ->
             count is_fdopen t = count is_fclose t + count is_close t).
  { clear script. induction script as [|[errno|errno|reads] script IH];
      cbn [serve]; intros t st.
    - now intros [= <- <-].
    - now intros [= <- <-].
    - now intros [= <- <-].
    - destruct (serve commandPath script) as [t' st'].
      intros [= <- <-]. specialize (IH t' st' eq_refl).
      change (sys_open commandPath
                :: sys_fdopen :: read_lines reads ++ sys_fclose :: t')%list
        with ([sys_open commandPath; sys_fdopen]
                ++ (read_lines reads ++ ([sys_fclose] ++ t')))%list.
      rewrite !count_app, !count_read_lines by reflexivity.
      rewrite IH. cbn. lia. }
  cbv zeta. unfold CommandPipeThread.
  destruct (serve commandPath script) as [t st] eqn:Hs.
  apply Hserve in Hs.
  destruct fs as [[[|]|] [|] [|] [|] errno]; cbn [make_pipe];
    cbn; try reflexivity; exact Hs.
Qed.

Lemma posted_serve_writer (reads : list string) (script : list attempt) :
  posted (fst (serve commandPath (writer reads :: script)))
  = (map strip_eol reads ++ posted (fst (serve commandPath script)))%list.
Proof.
  cbn [serve]. destruct (serve commandPath script) as [t st]. cbn [fst].
  cbn [app posted]. rewrite !posted_app, posted_read_lines. reflexivity.
Qed.

(** X13.  No command posted to the main loop ends in a carriage
    return or a line feed. *)
Theorem posted_commands_stripped (script : list attempt) :
  forallb (fun command => negb (ends_with_eol command))
          (posted (fst (serve commandPath script))) = true.
Proof.
  induction script as [|[errno|errno|reads] script IH]; try reflexivity.
  rewrite posted_serve_writer, forallb_app, IH, andb_true_r.
  clear IH. induction reads as [|line reads IH]; [reflexivity|].
  cbn [map forallb]. now rewrite strip_eol_clean, IH.
Qed.

End PipeMore.

(** ** The command pipe: buffers of 2047 characters *)

Section ReadsMore.
Import Str StrFacts TraceMonad.
Local Open Scope string_scope.

Variable commandPath : string.

(** A line that fits is read as one buffer. *)
Lemma fgets_all_line (cap : nat) (cmd more : string) :
  none_of is_LF cmd = true ->
  forall (room : nat) (line : string),
    String.length cmd < room ->
    fgets_all cap room line (cmd ++ String LF more)
    = (line ++ cmd ++ nl) :: fgets_all cap cap "" more.
Proof.
  intros Hcmd. induction cmd as [|c cmd IH]; intros room line Hroom.
  - reflexivity.
  - cbn [none_of] in Hcmd. apply andb_true_iff in Hcmd as [Hc Hcmd].
    apply negb_true_iff in Hc. cbn [String.length] in Hroom.
    cbn [append fgets_all]. rewrite Hc.
    replace (room <=? 1)%nat with false
      by (symmetry; apply Nat.leb_gt; lia).
    cbn [orb]. rewrite (IH Hcmd) by lia.
    now rewrite append_assoc.
Qed.

(** A buffer that is full is handed over without a line feed. *)
Lemma fgets_all_full (cap : nat) (chunk more : string) :
  none_of is_LF chunk = true ->
  forall (room : nat) (line : string),
    1 <= room ->
    String.length chunk = room ->
    fgets_all cap room line (chunk ++ more)
    = (line ++ chunk) :: fgets_all cap cap "" more.
Proof.
  intros Hchunk. induction chunk as [|c chunk IH];
    intros room line Hpos Hroom.
  - cbn [String.length] in Hroom. lia.
  - cbn [none_of] in Hchunk. apply andb_true_iff in Hchunk as [Hc Hchunk].
    apply negb_true_iff in Hc. cbn [String.length] in Hroom.
    cbn [append fgets_all]. rewrite Hc. cbn [orb].
    destruct chunk as [|d chunk].
    + replace (room <=? 1)%nat with true
        by (symmetry; apply Nat.leb_le; cbn in Hroom; lia).
      reflexivity.
    + replace (room <=? 1)%nat with false
        by (symmetry; apply Nat.leb_gt; cbn in Hroom; lia).
      rewrite (IH Hchunk) by (cbn in *; lia).
      now rewrite append_assoc.
Qed.

(** The buffers, one after the other, are the bytes written. *)
Lemma fgets_all_cat (cap : nat) (data : string) :
  forall (room : nat) (line : string),
    cat (fgets_all cap room line data) = line ++ data.
Proof.
  induction data as [|c data IH]; intros room line.
  - cbn [fgets_all]. destruct line; [reflexivity|].
    cbn [cat fold_right]. reflexivity.
  - cbn [fgets_all].
    destruct (is_LF c || (room <=? 1)%nat).
    + cbn [cat fold_right]. fold (cat (fgets_all cap cap "" data)).
      rewrite IH. now rewrite append_assoc.
    + rewrite IH. now rewrite append_assoc.
Qed.

Lemma fgets_all_bound (cap : nat) (data : string) :
  forall (room : nat) (line : string),
    1 <= room ->
    String.length line + room = cap ->
    forallb (fun buffer => (String.length buffer <=? cap)%nat)
            (fgets_all cap room line data) = true.
Proof.
  induction data as [|c data IH]; intros room line Hpos Hsum.
  - cbn [fgets_all]. destruct line; [reflexivity|].
    cbn [forallb]. rewrite andb_true_r. apply Nat.leb_le. lia.
  - cbn [fgets_all].
    assert (Hlen : String.length (line ++ String c "")
                   = S (String.length line))
      by (rewrite length_append; cbn; lia).
    destruct (is_LF c || (room <=? 1)%nat) eqn:Hcut.
    + cbn [forallb]. rewrite (IH cap "") by (cbn; lia).
      rewrite andb_true_r. apply Nat.leb_le. lia.
    + apply orb_false_iff in Hcut as [_ Hroom].
      apply Nat.leb_gt in Hroom. apply IH; lia.
Qed.

Lemma c_str_clean (s : string) : none_of is_NUL s = true -> c_str s = s.
Proof.
  induction s as [|c s IH]; [reflexivity|].
  cbn [none_of c_str]. intros Hs. apply andb_true_iff in Hs as [Hc Hs].
  apply negb_true_iff in Hc. now rewrite Hc, (IH Hs).
Qed.

Lemma length_c_str (s : string) : String.length (c_str s) <= String.length s.
Proof.
  induction s as [|c s IH]; [reflexivity|].
  cbn [c_str]. destruct (is_NUL c); cbn [String.length]; lia.
Qed.

Lemma posted_peer (data : string) (script : list attempt) :
  posted (fst (serve commandPath (peer data :: script)))
  = (map strip_eol (map c_str (fgets_buffers data))
       ++ posted (fst (serve commandPath script)))%list.
Proof. unfold peer. apply posted_serve_writer. Qed.

(** X14.  A line of fewer than 2047 characters, without NUL, that a
    peer ends with a line feed is posted as one command, its line end
    cut off; what the peer writes behind it is read as the lines that
    follow. *)
Theorem peer_line_posted (cmd more : string) (script : list attempt) :
  none_of is_LF cmd = true ->
  none_of is_NUL cmd = true ->
  String.length cmd < line_cap ->
  posted (fst (serve commandPath (peer (cmd ++ nl ++ more) :: script)))
  = strip_eol cmd
      :: posted (fst (serve commandPath (peer more :: script))).
Proof.
  intros Hlf Hnul Hlen. rewrite !posted_peer. unfold fgets_buffers.
  change (cmd ++ nl ++ more) with (cmd ++ String LF more).
  rewrite (fgets_all_line line_cap cmd more Hlf line_cap "" Hlen).
  cbn [append map app].
  rewrite c_str_clean
    by (rewrite none_of_append, Hnul; reflexivity).
  now rewrite (strip_eol_append_eol cmd nl eq_refl).
Qed.

(** X15.  A line is cut after 2047 characters: when a peer writes 2047
    characters without a line feed, they are posted as a command of
    their own, and what follows is read as a new line. *)
Theorem peer_long_line_cut (chunk more : string) (script : list attempt) :
  none_of is_LF chunk = true ->
  none_of is_NUL chunk = true ->
  String.length chunk = line_cap ->
  posted (fst (serve commandPath (peer (chunk ++ more) :: script)))
  = strip_eol chunk
      :: posted (fst (serve commandPath (peer more :: script))).
Proof.
  intros Hlf Hnul Hlen. rewrite !posted_peer. unfold fgets_buffers.
  rewrite (fgets_all_full line_cap chunk more Hlf line_cap "")
    by (unfold line_cap in *; lia).
  cbn [append map app]. now rewrite (c_str_clean chunk Hnul).
Qed.

(** X16.  Whatever a peer writes, no command posted for it is longer
    than 2047 characters. *)
Theorem peer_commands_bounded (data : string) :
  forallb (fun command => (String.length command <=? line_cap)%nat)
          (posted (fst (serve commandPath [peer data]))) = true.
Proof.
  rewrite posted_peer. cbn [serve fst posted]. rewrite app_nil_r.
  unfold fgets_buffers.
  pose proof (fgets_all_bound line_cap data line_cap "" ) as Hbound.
  specialize (Hbound ltac:(unfold line_cap; lia) eq_refl).
  induction (fgets_all line_cap line_cap "" data) as [|b bs IH];
    [reflexivity|].
  cbn [forallb map] in *. apply andb_true_iff in Hbound as [Hb Hbs].
  rewrite (IH Hbs), andb_true_r.
  apply Nat.leb_le in Hb. apply Nat.leb_le.
  pose proof (length_strip_eol (c_str b)).
  pose proof (length_c_str b). lia.
Qed.

End ReadsMore.

Lemma serve_stops_at_first_failure_witness :
  serve "/var/run/icinga2/icinga.cmd"
    ([writer ["[1] A"]] ++ open_fails 24 :: [writer ["[2] B"]])
  = (fst (serve "/var/run/icinga2/icinga.cmd" [writer ["[1] A"]])
       ++ [sys_open "/var/run/icinga2/icinga.cmd"],
     Stopped (PosixException "open() failed" 24))
  /\ serve "/var/run/icinga2/icinga.cmd"
       ([writer ["[1] A"]] ++ fdopen_fails 24 :: [writer ["[2] B"]])
     = (fst (serve "/var/run/icinga2/icinga.cmd" [writer ["[1] A"]])
          ++ [sys_open "/var/run/icinga2/icinga.cmd"; sys_fdopen; sys_close],
        Stopped (PosixException "fdopen() failed" 24)).
Proof.
  exact (serve_stops_at_first_failure "/var/run/icinga2/icinga.cmd"
           [writer ["[1] A"]] [writer ["[2] B"]] 24 eq_refl).
Defined.

Lemma peer_line_posted_witness :
  posted (fst (serve "/var/run/icinga2/icinga.cmd"
                 [peer ("[1] A;b" ++ Str.nl ++ "[2] C" ++ Str.nl)%string]))
  = strip_eol "[1] A;b"
      :: posted (fst (serve "/var/run/icinga2/icinga.cmd"
                        [peer ("[2] C" ++ Str.nl)%string])).
Proof.
  apply (peer_line_posted "/var/run/icinga2/icinga.cmd" "[1] A;b"
           ("[2] C" ++ Str.nl)%string []); try reflexivity.
  unfold line_cap. cbn. lia.
Defined.

Lemma peer_long_line_cut_witness :
  posted (fst (serve "/var/run/icinga2/icinga.cmd"
                 [peer (run_of 2047 "x" ++ "yz" ++ Str.nl)%string]))
  = strip_eol (run_of 2047 "x")
      :: posted (fst (serve "/var/run/icinga2/icinga.cmd"
                        [peer ("yz" ++ Str.nl)%string])).
Proof.
  exact (peer_long_line_cut "/var/run/icinga2/icinga.cmd"
           (run_of 2047 "x") ("yz" ++ Str.nl)%string []
           eq_refl eq_refl eq_refl).
Defined.

(** ** The snapshot writer: truncation, renames, defaults *)

Section WriterMore.
Context `{Externals} `{Enumerators}.
Import Str StrFacts TextFacts PubMonad.
Local Open Scope string_scope.

(** The head of a document: what a cycle writes for a registry without
    objects. *)
Lemma head_of_documents (config : Config)
    (rename_errno rename_errno' : string -> string -> option Z)
    (s o s' o' : string) (k k' : nat) (j j' : list pub_event) :
  let head :=
    snd (StatusTimerHandler config no_objects rename_errno
           (mkPub s o k j)) in
  let head' :=
    snd (StatusTimerHandler config no_objects rename_errno'
           (mkPub s' o' k' j')) in
  (k = k' -> status_data head = status_data head')
  /\ object_data head = object_data head'.
Proof.
  unfold StatusTimerHandler, no_objects, rename.
  cbn [Hosts HostGroups Services ServiceGroups foreach].
  cbv [bind note open insert consult ret
       status_data object_data clock_reads journal].
  destruct (rename_errno (GetStatusPath config ++ ".tmp")
              (GetStatusPath config));
    [|destruct (rename_errno (GetObjectsPath config ++ ".tmp")
                  (GetObjectsPath config))];
    (destruct (rename_errno' (GetStatusPath config ++ ".tmp")
                 (GetStatusPath config));
     [|destruct (rename_errno' (GetObjectsPath config ++ ".tmp")
                   (GetObjectsPath config))]);
    cbv [throw snd]; (split; [now intros ->|reflexivity]).
Qed.

(** X17.  A cycle starts both documents from nothing: what the streams
    held before, and whether a rename fails, has no influence on the
    documents written.  The objects document depends on the registry
    alone, so that two cycles over an unchanged registry write the same
    objects document; the status document depends besides only on the
    readings of the clock. *)
Theorem StatusTimerHandler_truncates (config : Config) (registry : Registry)
    (rename_errno rename_errno' : string -> string -> option Z)
    (s o s' o' : string) (k k' : nat) (j j' : list pub_event) :
  object_data
    (snd (StatusTimerHandler config registry rename_errno (mkPub s o k j)))
  = object_data
      (snd (StatusTimerHandler config registry rename_errno'
              (mkPub s' o' k' j')))
  /\ status_data
       (snd (StatusTimerHandler config registry rename_errno
               (mkPub s o k j)))
     = status_data
         (snd (StatusTimerHandler config registry rename_errno'
                 (mkPub s' o' k j'))).
Proof.
  destruct (StatusTimerHandler_state config registry rename_errno
              (mkPub s o k j)) as (Hs1 & Ho1 & _).
  destruct (StatusTimerHandler_state config registry rename_errno'
              (mkPub s' o' k' j')) as (_ & Ho2 & _).
  destruct (StatusTimerHandler_state config registry rename_errno'
              (mkPub s' o' k j')) as (Hs3 & _ & _).
  split.
  - rewrite Ho1, Ho2. f_equal.
    exact (proj2 (head_of_documents config rename_errno rename_errno'
                    s o s' o' k k' j j')).
  - rewrite Hs1, Hs3. cbn [clock_reads]. f_equal.
    exact (proj1 (head_of_documents config rename_errno rename_errno'
                    s o s' o' k k j j') eq_refl).
Qed.

(** X18.  What a cycle does besides writing, in order: it opens the
    two temporary files, asks the registry for the four types, closes
    both streams and renames the status document; only when this
    rename has succeeded does it rename the objects document.  The
    cycle fails only through [rename]: the writers never throw, and a
    failing rename leaves the handler as the exception "rename()
    failed". *)
Theorem StatusTimerHandler_journal (config : Config) (registry : Registry)
    (rename_errno : string -> string -> option Z) (w0 : PubState) :
  let run := StatusTimerHandler config registry rename_errno w0 in
  let statuspath := GetStatusPath config in
  let objectspath := GetObjectsPath config in
  let status_renamed := rename_errno (statuspath ++ ".tmp") statuspath in
  let objects_renamed := rename_errno (objectspath ++ ".tmp") objectspath in
  fst run
  = match status_renamed, objects_renamed with
    | Some errno, _ => Throw (PosixException "rename() failed" errno)
    | None, Some errno => Throw (PosixException "rename() failed" errno)
    | None, None => Ok tt
    end
  /\ journal (snd run)
     = (journal w0
          ++ [ pub_log LogInformation "compat"
                 "Writing compat status information";
               pub_open statusfp (statuspath ++ ".tmp")%string;
               pub_open objectfp (objectspath ++ ".tmp")%string;
               pub_enumerate "Host"; pub_enumerate "HostGroup";
               pub_enumerate "Service"; pub_enumerate "ServiceGroup";
               pub_close statusfp; pub_close objectfp; pub_close statusfp;
               pub_rename (statuspath ++ ".tmp")%string statuspath ]
          ++ match status_renamed with
             | Some _ => []
             | None =>
                 [ pub_close objectfp;
                   pub_rename (objectspath ++ ".tmp")%string objectspath ]
             end)%list.
Proof.
  destruct w0 as [s0 o0 k0 j0].
  destruct registry as [hosts hgs svcs sgs].
  unfold StatusTimerHandler, rename.
  cbn [Hosts HostGroups Services ServiceGroups].
  cbv [bind note open insert consult ret
       status_data object_data clock_reads journal].
  rewrite (foreach_appends host_body (DumpHostStatus statusfp)
             (DumpHostObject objectfp) 3 host_body_appends).
  cbv [status_data object_data clock_reads journal].
  rewrite (foreach_objects hostgroup_body hostgroup_body_appends).
  cbv [status_data object_data clock_reads journal].
  rewrite (foreach_appends service_body (DumpServiceStatus statusfp)
             (DumpServiceObject objectfp) 1 service_body_appends).
  cbv [status_data object_data clock_reads journal].
  rewrite (foreach_objects servicegroup_body servicegroup_body_appends).
  cbv [status_data object_data clock_reads journal].
  destruct (rename_errno (GetStatusPath config ++ ".tmp")
              (GetStatusPath config));
    [|destruct (rename_errno (GetObjectsPath config ++ ".tmp")
                  (GetObjectsPath config))];
    cbv [throw snd fst]; (split; [reflexivity|]);
    now rewrite ?app_nil_r, <- ?app_assoc.
Qed.

(** Brings the text of a block into the form [cat items]. *)
Ltac items_of_block :=
  cbv [DumpHostStatus DumpHostObject DumpServiceStatus DumpServiceObject
       hostgroup_body servicegroup_body DumpNameList DumpStringList
       block written bind ret insert consult snd fst
       status_data object_data clock_reads journal];
  cbn [append]; rewrite <- ?cat_app; cbn [app].

Ltac line_behind i n :=
  match goal with
  | |- In _ (lines (cat ?items)) => apply (line_in_items items i n)
  end.

(** X19.  For a service that has no check result yet the status block
    says [has_been_checked=0], leaves [plugin_output] and
    [performance_data] empty, and gives -1 as the time of the last
    check.  (The line with the number is found as a line provided the
    rendering of -1 holds no line feed.) *)
Theorem servicestatus_unchecked (service : Service) (k : nat) :
  GetLastCheckResult service = None ->
  none_of is_LF (show_double (-1)%float) = true ->
  let text := block statusfp k (DumpServiceStatus statusfp service) in
  In (tab ++ "has_been_checked=0") (lines text)
  /\ In (tab ++ "plugin_output=") (lines text)
  /\ In (tab ++ "performance_data=") (lines text)
  /\ In (tab ++ "last_check=" ++ show_double (-1)%float) (lines text).
Proof.
  intros Hcr Hminus text. subst text.
  replace (tab ++ "last_check=" ++ show_double (-1)%float)
    with (cat [tab; "last_check="; show_double (-1)%float])
    by (cbn [cat fold_right]; now rewrite append_nil_r).
  items_of_block. rewrite Hcr.
  repeat split;
    [line_behind 17 3 | line_behind 40 3 | line_behind 44 3
     | line_behind 48 3]; try reflexivity.
  cbn [firstn skipn]. rewrite none_of_cat. cbn [forallb].
  now rewrite Hminus.
Qed.

(** X20.  The [members] field of a service group is always written,
    also for a group without members, and holds host name and alias of
    each member service, pair after pair, joined by commas.  (Names and
    aliases are taken to hold no line feed.) *)
Theorem servicegroup_members_field (sg : ServiceGroup) :
  forallb (fun service =>
             none_of is_LF (GetName (GetHost service))
             && none_of is_LF (GetAlias service))
          (ServiceGroup_GetMembers sg) = true ->
  In (tab ++ "members" ++ tab ++ servicegroup_members sg)
     (lines (block objectfp 0 (servicegroup_body sg))).
Proof.
  intros Hclean.
  replace (tab ++ "members" ++ tab ++ servicegroup_members sg)
    with (cat [tab; "members"; tab; servicegroup_members sg])
    by (cbn [cat fold_right]; now rewrite append_nil_r).
  items_of_block. rewrite sglist_of_pairs. fold (servicegroup_members sg).
  line_behind 21 4; try reflexivity.
  cbn [firstn skipn]. rewrite none_of_cat. cbn [forallb].
  unfold servicegroup_members. rewrite join_line; [reflexivity..|].
  induction (ServiceGroup_GetMembers sg) as [|service members IH];
    [reflexivity|].
  cbn [forallb flat_map app] in *.
  apply andb_true_iff in Hclean as [Hservice Hmembers].
  apply andb_true_iff in Hservice as [Hname Halias].
  now rewrite Hname, Halias, (IH Hmembers).
Qed.

End WriterMore.

Lemma servicestatus_unchecked_witness :
  let text :=
    block statusfp 0
      (@DumpServiceStatus Sample.platform Sample.enumerators statusfp
         (Sample.ping Sample.web None 4)) in
  In (Str.tab ++ "has_been_checked=0")%string (Str.lines text)
  /\ In (Str.tab ++ "plugin_output=")%string (Str.lines text)
  /\ In (Str.tab ++ "performance_data=")%string (Str.lines text)
  /\ In (Str.tab ++ "last_check=-1.000000")%string (Str.lines text).
Proof.
  exact (@servicestatus_unchecked Sample.platform Sample.enumerators
           (Sample.ping Sample.web None 4) 0 eq_refl eq_refl).
Defined.

Lemma servicegroup_members_field_witness :
  In (Str.tab ++ "members" ++ Str.tab ++ "web,ping,localhost,ping")%string
     (Str.lines (block objectfp 0 (servicegroup_body Sample.pings))).
Proof.
  exact (servicegroup_members_field Sample.pings eq_refl).
Defined.
